(** * Dashboard export runtime: the sheet formatter and its callers

    A shallow embedding of [public/app/features/runtime/init.ts]
    ([toObject], [getTextColor], [waitForData], [downloadCsv],
    [downloadZip], [downloadXlsx]) and of the export dialog
    [ShareReport.onDownload], followed by the properties established
    about them.

    Conventions of the embedding.
    - A JavaScript string is a sequence of UTF-16 code units; here strings
      are restricted to code units below 256, the characters of [string].
    - A JavaScript number is an IEEE-754 binary64 value: [float].
    - [undefined] (and [null]) in an optional position is [None].
    - A [throw], or a rejected promise that is awaited, is [Throw]. *)

From Stdlib Require Import ZArith Floats FloatAxioms SpecFloat Uint63 Ascii String.
From stdpp Require Import base option list strings pretty gmap.

Set Default Proof Using "Type".
Local Open Scope string_scope.
Local Open Scope list_scope.

(** ** JavaScript prelude *)

Module Js.

(** What can be thrown by the code under study. *)
Inductive exn : Type :=
| TypeError                      (* property access on undefined / null *)
| Rejected (reason : string).    (* a promise rejected by the data layer *)

Inductive result (A : Type) : Type :=
| Ok (a : A)
| Throw (e : exn).
Arguments Ok {A} a.
Arguments Throw {A} e.

#[export] Instance result_ret : MRet result := fun _ a => Ok a.
#[export] Instance result_bind : MBind result := fun _ _ k m =>
  match m with
  | Ok a => k a
  | Throw e => Throw e
  end.

Definition is_ok {A} (m : result A) : bool :=
  match m with Ok _ => true | Throw _ => false end.

(** Primitive values found in the value vector of a field. *)
Inductive value : Type :=
| Undefined
| Null
| Bool (b : bool)
| Number (x : float)
| Str (s : string).

(** [s.includes(needle)] *)
Fixpoint includes (needle s : string) : bool :=
  if String.prefix needle s then true
  else match s with
       | EmptyString => false
       | String _ rest => includes needle rest
       end.

Fixpoint skip (n : nat) (s : string) : string :=
  match n, s with
  | S n', String _ rest => skip n' rest
  | _, _ => s
  end.

(** [s.replace(needle, by_)] with a string pattern: only the first
    occurrence is replaced. *)
Fixpoint replace (needle by_ s : string) : string :=
  if String.prefix needle s then by_ +:+ skip (String.length needle) s
  else match s with
       | EmptyString => EmptyString
       | String c rest => String c (replace needle by_ rest)
       end.

Definition code (c : ascii) : Z := Z.of_nat (nat_of_ascii c).

(** White space and line terminators skipped by [parseInt]
    (TAB, LF, VT, FF, CR, SP, NBSP). *)
Definition isWhiteSpace (c : ascii) : bool :=
  let n := code c in
  ((9 <=? n) && (n <=? 13) || (n =? 32) || (n =? 160))%Z.

Fixpoint trimStart (s : string) : string :=
  match s with
  | String c rest => if isWhiteSpace c then trimStart rest else s
  | EmptyString => EmptyString
  end.

Definition hexDigit (c : ascii) : option Z :=
  let n := code c in
  if ((48 <=? n) && (n <=? 57))%Z then Some (n - 48)%Z
  else if ((65 <=? n) && (n <=? 70))%Z then Some (n - 55)%Z
  else if ((97 <=? n) && (n <=? 102))%Z then Some (n - 87)%Z
  else None.

(** Value of the longest prefix of hexadecimal digits; [acc] is the value
    read so far, [None] while no digit has been read. *)
Fixpoint hexPrefix (acc : option Z) (s : string) : option Z :=
  match s with
  | String c rest =>
      match hexDigit c with
      | Some d => hexPrefix (Some (16 * default 0 acc + d)%Z) rest
      | None => acc
      end
  | EmptyString => acc
  end.

Definition ofInteger (n : Z) : float := PrimFloat.of_uint63 (Uint63.of_Z n).

(** [parseInt(s, 16)]: leading white space, an optional sign and an
    optional [0x] are skipped, then the longest run of hexadecimal digits
    is read; no digit gives [NaN]. The conversion [ofInteger] is exact
    below 2^53, which covers the two-character groups it is used on. *)
Definition parseInt16 (s : string) : float :=
  let s1 := trimStart s in
  let '(negative, s2) :=
    match s1 with
    | String "-" rest => (true, rest)
    | String "+" rest => (false, rest)
    | _ => (false, s1)
    end in
  let s3 :=
    match s2 with
    | String "0" (String "x" rest) | String "0" (String "X" rest) => rest
    | _ => s2
    end in
  match hexPrefix None s3 with
  | None => nan
  | Some n => if negative then (- ofInteger n)%float else ofInteger n
  end.

End Js.
Import Js.

(** ** The formatter ([toObject], [getTextColor]) *)

Module Formatter.

(** [.] of a regular expression without the [s] flag: any code unit but
    a line terminator. *)
Definition isLineTerminator (c : ascii) : bool :=
  ((code c =? 10) || (code c =? 13))%Z.

Definition dot (c : ascii) : bool := negb (isLineTerminator c).

(** [backgroundColor.match(/^#(..)(..)(..)$/)]: the three captured
    groups, or [None] when the match fails. *)
Definition matchChannels (s : string) : option (string * string * string) :=
  match s with
  | String "#" (String r1 (String r2 (String g1 (String g2
      (String b1 (String b2 EmptyString)))))) =>
      if dot r1 && dot r2 && dot g1 && dot g2 && dot b1 && dot b2
      then Some (String r1 (String r2 EmptyString),
                 String g1 (String g2 EmptyString),
                 String b1 (String b2 EmptyString))
      else None
  | _ => None
  end.

(** The template [`#${c[1]}${c[1]}${c[2]}${c[2]}${c[3]}${c[3]}`], applied
    to strings of length 4 only. *)
Definition expandShorthand (s : string) : string :=
  match s with
  | String _ (String r (String g (String b EmptyString))) =>
      String "#" (String r (String r (String g (String g
        (String b (String b EmptyString))))))
  | _ => s
  end.

#[warnings="-inexact-float"] Definition luminance (rInt gInt bInt : float) : float :=
  ((0.299 * rInt + 0.587 * gInt + 0.114 * bInt) / 255)%float.

Definition textColorOf (l : float) : string :=
  if PrimFloat.ltb 0.5%float l then "000000" else "FFFFFF".

Definition getTextColor (backgroundColor : option string)
  : result (option string) :=
  match backgroundColor with
  | None | Some EmptyString => Ok None
  | Some bg =>
      let bg :=
        if (String.length bg =? 4)%nat then expandShorthand bg else bg in
      match matchChannels bg with
      | None => Throw TypeError
      | Some (r, g, b) =>
          let rInt := parseInt16 r in
          let gInt := parseInt16 g in
          let bInt := parseInt16 b in
          Ok (Some (textColorOf (luminance rInt gInt bInt)))
      end
  end.

(** *** Data model *)

(** [FieldType] of @grafana/data. *)
Inductive FieldType : Type :=
| ft_time | ft_number | ft_string | ft_boolean
| ft_enum | ft_trace | ft_geo | ft_other | ft_frame | ft_nestedFrames.

(** [FieldTextAlignment]: ['auto' | 'left' | 'right' | 'center']. *)
Inductive FieldTextAlignment : Type :=
| align_auto | align_left | align_right | align_center.

Record LinkModel : Type := {
  link_title : string;
  link_href : string;
}.

Record DisplayValue : Type := {
  display_text : string;
  display_color : option string;
}.

(** [config.custom] of a table field. *)
Record CustomConfig : Type := {
  custom_hidden : option bool;
  custom_width : option Z;
  custom_align : option FieldTextAlignment;
  custom_cellOptions_type : option string;   (* custom.cellOptions?.type *)
}.

Record FieldConfig : Type := {
  config_unit : option string;
  config_custom : option CustomConfig;
}.

Record Field : Type := {
  field_name : string;
  field_type : FieldType;
  field_config : FieldConfig;
  field_values : list value;
  field_display : option (value → DisplayValue);
  field_getLinks : option (nat → list LinkModel);
}.

Record DataFrame : Type := {
  fields : list Field;
}.

(** The value stored in a cell: a primitive value kept as it is, or the
    object built by [new Date(v)], or the number [Number(v)]. *)
Inductive CellValue : Type :=
| Plain (v : value)
| DateOf (v : value)
| NumberOf (v : value).

Record Hyperlink : Type := {
  title : string;
  href : string;
}.

Record DataCell : Type := {
  cell_value : CellValue;
  cell_link : option Hyperlink;
  cell_color : option string;
  cell_background : option string;
}.

Record DataColumn : Type := {
  col_name : string;
  col_data : list DataCell;
  col_hidden : bool;
  col_align : option FieldTextAlignment;
  col_type : FieldType;
  col_fmt : option string;
  col_width : Z;
}.

(** [DataSheet]: a plain object used as a map from keys to columns. *)
Abbreviation DataSheet := (gmap string DataColumn).

(** Modelled from the spec: [getFieldDisplayName] is imported from
    @grafana/data and is not part of the sources; the data model gives
    every field a display name, which is what it returns. *)
Definition getFieldDisplayName (f : Field) (series : DataFrame) : string :=
  field_name f.

(** Modelled from the spec: [formattedValueToString] is imported from
    @grafana/data; it yields the human-readable string of a display
    value. *)
Definition formattedValueToString (d : DisplayValue) : string :=
  display_text d.

(** [Boolean(v)] *)
Definition toBoolean (v : value) : bool :=
  match v with
  | Undefined | Null => false
  | Bool b => b
  | Number x => negb (PrimFloat.eqb x 0 || PrimFloat.is_nan x)
  | Str s => negb (String.eqb s "")
  end.

(** Names that every object inherits from [Object.prototype]: reading
    one of them on [results] gives a truthy value. *)
Definition objectPrototypeKeys : list string :=
  [ "constructor"; "hasOwnProperty"; "isPrototypeOf";
    "propertyIsEnumerable"; "toLocaleString"; "toString"; "valueOf";
    "__proto__"; "__defineGetter__"; "__defineSetter__";
    "__lookupGetter__"; "__lookupSetter__" ].

(** Truthiness of [results[key]]. *)
Definition truthyAt (results : DataSheet) (key : string) : bool :=
  bool_decide (is_Some (results !! key))
  || bool_decide (key ∈ objectPrototypeKeys).

(** [for (...) { acc = step(acc, x) }] where [step] may throw. *)
Fixpoint foldM {S A : Type} (step : S → A → result S) (s : S) (l : list A)
  : result S :=
  match l with
  | [] => Ok s
  | a :: l' => s' ← step s a; foldM step s' l'
  end.

(** *** [toObject] *)

Section ToObject.

(** [systemDateFormats.fullDate], a setting of the host application. *)
Variable fullDate : string.

(** The [fmt] variable of the column set-up (lines 333-343). *)
Definition columnFormat (f : Field) : option string :=
  let fieldConfig := field_config f in
  match field_type f with
  | ft_time =>
      let hasTime := includes "time:" <$> config_unit fieldConfig in
      if default false hasTime
      then replace "time:" "" <$> config_unit fieldConfig
      else Some fullDate
  | _ => None
  end.

(** The object literal assigned to [results[`${i}`]] (lines 345-353).
    [fieldConfig.custom?.hidden] tolerates a missing [custom];
    [fieldConfig.custom.width] does not. *)
Definition newColumn (fieldName : string) (f : Field) : result DataColumn :=
  let fieldConfig := field_config f in
  let fmt := columnFormat f in
  let hidden := default false (config_custom fieldConfig ≫= custom_hidden) in
  match config_custom fieldConfig with
  | None => Throw TypeError
  | Some custom =>
      Ok {| col_name := fieldName;
            col_data := [];
            col_type := field_type f;
            col_hidden := hidden;
            col_width := default 150%Z (custom_width custom);
            col_align := match custom_align custom with
                         | Some align_auto => None
                         | a => a
                         end;
            col_fmt := fmt |}
  end.

(** First inner loop (lines 328-355), from index [i] on. *)
Fixpoint declareColumns (series : DataFrame) (i : nat) (fs : list Field)
    (results : DataSheet) : result DataSheet :=
  match fs with
  | [] => Ok results
  | f :: rest =>
      let fieldName := getFieldDisplayName f series in
      results' ←
        (if truthyAt results fieldName then Ok results
         else col ← newColumn fieldName f;
              Ok (<[pretty i := col]> results));
      declareColumns series (S i) rest results'
  end.

(** The value of a cell by declared type (lines 373-387). *)
Definition resolveValue (f : Field) (v : value) (diplay : option DisplayValue)
  : CellValue :=
  match field_type f with
  | ft_time => DateOf v
  | ft_number => NumberOf v
  | ft_boolean => Plain (Bool (toBoolean v))
  | ft_string =>
      match diplay with
      | Some d => Plain (Str (formattedValueToString d))
      | None => Plain v
      end
  | _ => Plain Undefined
  end.

Definition cellOptionsType (f : Field) : option string :=
  config_custom (field_config f) ≫= custom_cellOptions_type.

Definition linkColor : string := "#3B5586".

(** One cell: the body of the loop over [j] up to the [push]
    (lines 362-409). *)
Definition resolveCell (f : Field) (i : nat) : result DataCell :=
  let v := default Undefined (field_values f !! i) in
  let diplay := (λ display, display v) <$> field_display f in
  let value := resolveValue f v diplay in
  let displayColor := diplay ≫= display_color in
  colors ←
    (if bool_decide (cellOptionsType f = Some "color-text")
     then Ok (displayColor, None)
     else if bool_decide (cellOptionsType f = Some "color-background")
     then color ← getTextColor displayColor; Ok (color, displayColor)
     else Ok (None, None));
  let links := from_option (λ getLinks, getLinks i) [] (field_getLinks f) in
  match links with
  | l :: _ =>
      Ok {| cell_value := value;
            cell_link := Some {| title := link_title l; href := link_href l |};
            cell_color := Some linkColor;
            cell_background := colors.2 |}
  | [] =>
      Ok {| cell_value := value;
            cell_link := None;
            cell_color := colors.1;
            cell_background := colors.2 |}
  end.

Definition pushCell (cell : DataCell) (col : DataColumn) : DataColumn :=
  {| col_name := col_name col;
     col_data := col_data col ++ [cell];
     col_type := col_type col;
     col_hidden := col_hidden col;
     col_width := col_width col;
     col_align := col_align col;
     col_fmt := col_fmt col |}.

(** The loop over [j] for row [i] (lines 361-412), from index [j] on. *)
Fixpoint pushRow (i j : nat) (fs : list Field) (results : DataSheet)
  : result DataSheet :=
  match fs with
  | [] => Ok results
  | f :: rest =>
      cell ← resolveCell f i;
      match results !! pretty j with
      | None => Throw TypeError
      | Some col => pushRow i (S j) rest (<[pretty j := pushCell cell col]> results)
      end
  end.

(** One iteration of the loop over the frames (lines 320-414). *)
Definition addSeries (results : DataSheet) (series : DataFrame)
  : result DataSheet :=
  match fields series with
  | [] => Ok results
  | f0 :: _ =>
      results' ← declareColumns series 0 (fields series) results;
      let length := length (field_values f0) in
      foldM (λ acc i, pushRow i 0 (fields series) acc) results' (seq 0 length)
  end.

Definition toObject (data : option (list DataFrame)) : result DataSheet :=
  match data with
  | None => Ok ∅
  | Some data => foldM addSeries ∅ data
  end.

End ToObject.

End Formatter.
Import Formatter.

(** ** The window runtime ([downloadCsv], [downloadZip], [downloadXlsx]) *)

Module Runtime.

Inductive LoadingState : Type :=
| NotStarted | Loading | Streaming | Done | Error.

(** One emission of a panel's query runner. *)
Record PanelData : Type := {
  state : LoadingState;
  series : list DataFrame;
}.

(** A panel, with what its query runner emits over time
    ([panel.getQueryRunner().getData(...)]) and its display title
    ([panel.getDisplayTitle()]). *)
Record PanelModel : Type := {
  panel_id : Z;
  panel_type : string;
  panel_title : string;
  panel_emits : list PanelData;
}.

Record DashboardModel : Type := {
  dashboard_title : string;
  dashboard_uid : string;
  panels : list PanelModel;
}.

(** How the promise of [waitForData] settles on a stream of emissions:
    the first emission in state [Done] resolves it with its series, the
    first in state [Error] rejects it; when neither comes, the timer
    rejects it. *)
Fixpoint settle (emits : list PanelData) : result (list DataFrame) :=
  match emits with
  | [] => Throw (Rejected "Timeout exceeded, no data received")
  | next :: later =>
      match state next with
      | Done => Ok (series next)
      | Error => Throw (Rejected "Error loading data")
      | _ => settle later
      end
  end.

Definition waitForData (dashboard : DashboardModel) (panel : PanelModel)
  : result (list DataFrame) :=
  settle (panel_emits panel).

(** The [panels] constant of the three download functions:
    [ids.length ? d.panels.filter((p) => ids.includes(p.id)) : d.panels]. *)
Definition selectPanels (ids : list Z) (d : DashboardModel) : list PanelModel :=
  if bool_decide (length ids ≠ 0)
  then filter (λ p, panel_id p ∈ ids) (panels d)
  else panels d.

(** A call [downloadDataFrameAsCsv(dataFrame[0], panel.getDisplayTitle())]. *)
Record CsvDownload : Type := {
  csv_frame : option DataFrame;
  csv_title : string;
}.

(** A call [zip.file(`${i + 1}-${d.title}-data-...csv`, ... toCSV(dataFrame))]. *)
Record ZipEntry : Type := {
  zip_number : nat;
  zip_frames : list DataFrame;
}.

Inductive SheetContent : Type :=
| Image (base64 : string)
| Table (data : DataSheet).

(** A worksheet [`${i + 1}-${panel.getDisplayTitle()}`] of the workbook. *)
Record Worksheet : Type := {
  sheet_name : string;
  sheet_content : SheetContent;
}.

Section Downloads.

(** [systemDateFormats.fullDate]. *)
Variable fullDate : string.

(** [imageResponseToBase64(buildImageUrl(true, d.uid, 'light', panel))]:
    the rendered image of a panel, fetched over the network. *)
Variable imageResponseToBase64 : DashboardModel → PanelModel → result string.

(** Body of the loop of [downloadCsv] for the indices given. The files
    already handed to the browser stay delivered when a later panel
    fails: the function gives them together with how the loop ended. *)
Fixpoint csvLoop (d : DashboardModel) (indices : list nat)
  : list CsvDownload * result () :=
  match indices with
  | [] => ([], Ok ())
  | i :: rest =>
      match panels d !! i with
      | None => ([], Throw TypeError)
      | Some panel =>
          match waitForData d panel with
          | Throw e => ([], Throw e)
          | Ok dataFrame =>
              let file := {| csv_frame := head dataFrame;
                             csv_title := panel_title panel |} in
              (file :: (csvLoop d rest).1, (csvLoop d rest).2)
          end
      end
  end.

Definition downloadCsv (ids : list Z) (current : option DashboardModel)
  : list CsvDownload * result () :=
  match current with
  | None => ([], Ok ())
  | Some d => csvLoop d (seq 0 (length (selectPanels ids d)))
  end.

(** Body of the loop of [downloadZip]; the archive is saved only after
    the loop. *)
Definition zipStep (d : DashboardModel) (zip : list ZipEntry) (i : nat)
  : result (list ZipEntry) :=
  match panels d !! i with
  | None => Throw TypeError
  | Some panel =>
      dataFrame ← waitForData d panel;
      Ok (zip ++ [{| zip_number := i + 1; zip_frames := dataFrame |}])
  end.

(** [None]: nothing saved, there is no current dashboard. *)
Definition downloadZip (ids : list Z) (current : option DashboardModel)
  : result (option (list ZipEntry)) :=
  match current with
  | None => Ok None
  | Some d =>
      zip ← foldM (zipStep d) [] (seq 0 (length (selectPanels ids d)));
      Ok (Some zip)
  end.

(** Body of the loop of [downloadXlsx]: the worksheet of a panel holds
    its rendered image, or the sheet that [toObject] makes of its data.
    How the workbook library lays that sheet out in cells and styles is
    left out. *)
Definition sheetStep (d : DashboardModel) (workbook : list Worksheet) (i : nat)
  : result (list Worksheet) :=
  match panels d !! i with
  | None => Throw TypeError
  | Some panel =>
      let name := pretty (i + 1) +:+ "-" +:+ panel_title panel in
      if bool_decide (panel_type panel ≠ "table")
      then
        base64 ← imageResponseToBase64 d panel;
        Ok (workbook ++ [{| sheet_name := name; sheet_content := Image base64 |}])
      else
        frames ← waitForData d panel;
        data ← toObject fullDate (Some frames);
        Ok (workbook ++ [{| sheet_name := name; sheet_content := Table data |}])
  end.

Definition downloadXlsx (ids : list Z) (current : option DashboardModel)
  : result (option (list Worksheet)) :=
  match current with
  | None => Ok None
  | Some d =>
      workbook ← foldM (sheetStep d) [] (seq 0 (length (selectPanels ids d)));
      Ok (Some workbook)
  end.

End Downloads.

End Runtime.
Import Runtime.

(** ** The export dialog ([ShareReport]) *)

Module ShareReport.

Inductive ReportType : Type := csv | xlsx.

Record State : Type := {
  reportType : ReportType;
  zipped : bool;
  loading : bool;
}.

(** The state set by the constructor. *)
Definition initialState : State :=
  {| reportType := csv; zipped := false; loading := false |}.

(** [this.setState({ ...s, loading: b })] *)
Definition setLoading (b : bool) (s : State) : State :=
  {| reportType := reportType s; zipped := zipped s; loading := b |}.

Definition onChangeZipped (s : State) : State :=
  {| reportType := reportType s; zipped := negb (zipped s); loading := loading s |}.

(** The [onChange] handler of the radio group. *)
Definition onChangeReportType (value : ReportType) (s : State) : State :=
  {| reportType := value; zipped := zipped s; loading := loading s |}.

(** What the user does with the dialog while a download is awaited. *)
Inductive UiEvent : Type :=
| ToggleZipped
| PickReportType (value : ReportType).

Definition handle (s : State) (e : UiEvent) : State :=
  match e with
  | ToggleZipped => onChangeZipped s
  | PickReportType value => onChangeReportType value s
  end.

(** [window.grafanaRuntime]: how each download, called without ids,
    settles. *)
Record GrafanaRuntime : Type := {
  runDownloadZip : result ();
  runDownloadCsv : result ();
  runDownloadXlsx : result ();
}.

(** [onDownload]: the state of the component when the returned promise
    settles, and how it settles. [during] are the events handled while
    the download is awaited. *)
Definition onDownload (runtime : option GrafanaRuntime) (during : list UiEvent)
    (s : State) : State * result () :=
  let s1 := setLoading true s in
  let awaited :=
    match reportType s1 with
    | csv =>
        if zipped s1
        then from_option runDownloadZip (Ok ()) runtime
        else from_option runDownloadCsv (Ok ()) runtime
    | xlsx => from_option runDownloadXlsx (Ok ()) runtime
    end in
  let s2 := foldl handle s1 during in
  match awaited with
  | Throw e => (s2, Throw e)
  | Ok _ => (setLoading false s2, Ok ())
  end.

End ShareReport.

(** ** The last results of the panels ([getPanelData]) *)

Module PanelResults.

Section GetPanelData.

(** [panel.getQueryRunner().getLastResult()] *)
Variable getLastResult : PanelModel → option PanelData.

(** [acc[panel.id] = ...; return acc] *)
Definition recordResult (acc : gmap Z (option PanelData)) (panel : PanelModel)
  : gmap Z (option PanelData) :=
  <[panel_id panel := getLastResult panel]> acc.

(** [getPanelData]: [undefined] without a current dashboard, else the
    object that the [reduce] fills, one assignment per panel. *)
Definition getPanelData (current : option DashboardModel)
  : option (gmap Z (option PanelData)) :=
  d ← current; Some (foldl recordResult ∅ (panels d)).

End GetPanelData.

End PanelResults.
Import PanelResults.

(** ** The contrast computation, as specified *)

Module ContrastSpec.

Fixpoint position (c : ascii) (n : Z) (digits : string) : option Z :=
  match digits with
  | EmptyString => None
  | String d rest => if Ascii.eqb c d then Some n else position c (n + 1) rest
  end.

(** A hexadecimal digit, in either case, and its value. *)
Definition hexValue (c : ascii) : option Z :=
  match position c 0 "0123456789abcdef" with
  | Some n => Some n
  | None => position c 10 "ABCDEF"
  end.

(** The channels R, G, B of a well-formed colour: [#] and three digits,
    each standing for itself twice, or [#] and six digits. *)
Definition channels (color : string) : option (Z * Z * Z) :=
  match color with
  | String "#" digits =>
      match mapM hexValue (list_ascii_of_string digits) with
      | Some [r; g; b] =>
          Some (16 * r + r, 16 * g + g, 16 * b + b)%Z
      | Some [r1; r2; g1; g2; b1; b2] =>
          Some (16 * r1 + r2, 16 * g1 + g2, 16 * b1 + b2)%Z
      | _ => None
      end
  | _ => None
  end.

Definition wellFormed (color : string) : Prop := is_Some (channels color).

Definition black : string := "000000".
Definition white : string := "FFFFFF".

(** L = (0.299 R + 0.587 G + 0.114 B) / 255, in the arithmetic of the
    host language. *)
#[warnings="-inexact-float"] Definition relativeLuminance (R G B : Z) : float :=
  ((0.299 * ofInteger R + 0.587 * ofInteger G + 0.114 * ofInteger B) / 255)%float.

Definition computeContrastColor (background : option string) : option string :=
  color ← background;
  '(R, G, B) ← channels color;
  Some (if PrimFloat.ltb 0.5 (relativeLuminance R G B) then black else white).

End ContrastSpec.

(** ** Vocabulary of the statements *)

Module Observe.

(** [fields[j].values[i]] *)
Definition rawAt (f : Field) (i : nat) : value :=
  default Undefined (field_values f !! i).

(** [fields[j].display?.(v)] for row [i]. *)
Definition displayAt (f : Field) (i : nat) : option DisplayValue :=
  (λ display, display (rawAt f i)) <$> field_display f.

(** [diplay?.color] for row [i] of a field. *)
Definition displayColorAt (f : Field) (i : nat) : option string :=
  displayAt f i ≫= display_color.

(** [fields[j].getLinks?.({ valueRowIndex: i }) ?? []] *)
Definition linksAt (f : Field) (i : nat) : list LinkModel :=
  from_option (λ getLinks, getLinks i) [] (field_getLinks f).

(** The same field with no link resolver. *)
Definition withoutLinks (f : Field) : Field :=
  {| field_name := field_name f;
     field_type := field_type f;
     field_config := field_config f;
     field_values := field_values f;
     field_display := field_display f;
     field_getLinks := None |}.

(** The four declared types that [toObject] tests for. *)
Definition explicitType (t : FieldType) : bool :=
  match t with
  | ft_time | ft_number | ft_boolean | ft_string => true
  | _ => false
  end.

(** A colour given to the contrast computation that fails the pattern
    [#RRGGBB], 3-digit expansion included. *)
Definition malformed (color : string) : Prop :=
  color ≠ EmptyString ∧
  matchChannels
    (if (String.length color =? 4)%nat then expandShorthand color else color)
  = None.

(** Number of rows of a frame: the length of its first field. *)
Definition rowCount (series : DataFrame) : nat :=
  from_option (λ f0, length (field_values f0)) 0 (head (fields series)).

Definition hexTable : list (ascii * Z) :=
  [("0", 0); ("1", 1); ("2", 2); ("3", 3); ("4", 4); ("5", 5); ("6", 6);
   ("7", 7); ("8", 8); ("9", 9);
   ("a", 10); ("b", 11); ("c", 12); ("d", 13); ("e", 14); ("f", 15);
   ("A", 10); ("B", 11); ("C", 12); ("D", 13); ("E", 14); ("F", 15)]%char%Z.

(** Every key of the sheet is the decimal writing of an index. *)
Definition numeralKeys (results : DataSheet) : Prop :=
  ∀ key, is_Some (results !! key) → ∃ n : nat, key = pretty n.

(** A display name that is neither the decimal writing of an index nor a
    name inherited from [Object.prototype]: [results[name]] is then
    [undefined] on a sheet with numeral keys. *)
Definition safeName (name : string) : Prop :=
  (∀ n : nat, name ≠ pretty n) ∧ name ∉ objectPrototypeKeys.

(** The column that the object literal of lines 345-353 builds for a
    field that has a [custom] block. *)
Definition emptyColumn (fullDate : string) (f : Field) : DataColumn :=
  let custom := config_custom (field_config f) in
  {| col_name := field_name f;
     col_data := [];
     col_type := field_type f;
     col_hidden := default false (custom ≫= custom_hidden);
     col_width := default 150%Z (custom ≫= custom_width);
     col_align := match custom ≫= custom_align with
                  | Some align_auto => None
                  | a => a
                  end;
     col_fmt := columnFormat fullDate f |}.

(** The column after [cells] were pushed to its data. *)
Definition appendCells (cells : list DataCell) (col : DataColumn) : DataColumn :=
  {| col_name := col_name col;
     col_data := col_data col ++ cells;
     col_type := col_type col;
     col_hidden := col_hidden col;
     col_width := col_width col;
     col_align := col_align col;
     col_fmt := col_fmt col |}.

(** The cell of row [i] of a field, when its resolution does not throw. *)
Definition cellOf (f : Field) (i : nat) : option DataCell :=
  match resolveCell f i with Ok cell => Some cell | Throw _ => None end.

(** The cells of the first [rows] rows of a field. *)
Definition cellsOf (f : Field) (rows : nat) : list DataCell :=
  omap (cellOf f) (seq 0 rows).

(** The column that one frame alone gives to position [j]. *)
Definition frameColumn (fullDate : string) (series : DataFrame) (j : nat)
  : option DataColumn :=
  (λ f, appendCells (cellsOf f (rowCount series)) (emptyColumn fullDate f))
    <$> fields series !! j.

(** The column of the last frame that has a field at position [j], or
    [before] when no frame has one. *)
Definition lastColumn (fullDate : string) (data : list DataFrame) (j : nat)
    (before : option DataColumn) : option DataColumn :=
  foldl (λ acc series, from_option Some acc (frameColumn fullDate series j))
        before data.

(** A frame on which the set-up and the cell resolution go through: every
    field has a safe display name, a [custom] block, and cells that
    resolve. *)
Definition wellBehaved (series : DataFrame) : Prop :=
  ∀ f, f ∈ fields series →
    safeName (field_name f)
    ∧ is_Some (config_custom (field_config f))
    ∧ ∀ i, i < rowCount series → is_Some (cellOf f i).

(** The metadata of a column: everything but its cells. *)
Definition columnSpec (col : DataColumn) :=
  (col_name col, col_type col, col_hidden col, col_width col, col_align col,
   col_fmt col).

(** The largest number of fields of a frame. *)
Definition maxFields (data : list DataFrame) : nat :=
  foldr (λ series m, length (fields series) `max` m) 0 data.

Definition isDigit (c : ascii) : bool := ((48 <=? code c) && (code c <=? 57))%Z.

Fixpoint allDigits (s : string) : bool :=
  match s with
  | EmptyString => true
  | String c rest => isDigit c && allDigits rest
  end.

(** An emission that settles nothing: neither [Done] nor [Error]. *)
Definition pending (emission : PanelData) : bool :=
  match state emission with
  | Done | Error => false
  | _ => true
  end.

(** The frames that [waitForData] resolves with, when it does. *)
Definition okFrames (d : DashboardModel) (p : PanelModel) : list DataFrame :=
  match waitForData d p with Ok frames => frames | Throw _ => [] end.

(** The data of every panel of the dashboard arrive. *)
Definition allLoaded (d : DashboardModel) : Prop :=
  ∀ p, p ∈ panels d → is_ok (waitForData d p) = true.

(** The archive entry and the worksheet name that the loops give to the
    panel met at index [i]. *)
Definition zipEntry (d : DashboardModel) (i : nat) (p : PanelModel) : ZipEntry :=
  {| zip_number := i + 1; zip_frames := okFrames d p |}.

Definition sheetName (i : nat) (p : PanelModel) : string :=
  pretty (i + 1) +:+ "-" +:+ panel_title p.

(** What the worksheet made for a panel holds: an image for a panel that
    is not a table, else the sheet that [toObject] makes of its data. *)
Definition sheetOf (fullDate : string) (d : DashboardModel) (sheet : Worksheet)
    (p : PanelModel) : Prop :=
  match sheet_content sheet with
  | Image _ => panel_type p ≠ "table"
  | Table data =>
      panel_type p = "table"
      ∧ ∃ frames, waitForData d p = Ok frames
                  ∧ toObject fullDate (Some frames) = Ok data
  end.

(** Not a number. *)
Definition isNaN (x : float) : Prop := Prim2SF x = S754_nan.

(** A property of keys and columns holds all over a sheet. *)
Definition allColumns (Q : string → DataColumn → Prop) (results : DataSheet)
  : Prop :=
  ∀ key col, results !! key = Some col → Q key col.

(** The colours of a cell agree with its link and background: a linked
    cell has the link colour; a cell with a non-empty background has a
    black, white or link-coloured text. *)
Definition legible (cell : DataCell) : Prop :=
  (is_Some (cell_link cell) → cell_color cell = Some "#3B5586")
  ∧ (∀ c, cell_background cell = Some c → c ≠ "" →
          cell_color cell = Some "000000"
          ∨ cell_color cell = Some "FFFFFF"
          ∨ cell_color cell = Some "#3B5586").

End Observe.
Import Observe.

(** ** Concrete inputs *)

Module Sample.

(** The default of [systemDateFormats.fullDate]. *)
Definition fullDate : string := "YYYY-MM-DD HH:mm:ss".

Definition custom (width : option Z) (align : FieldTextAlignment)
    (cellOptions : option string) : CustomConfig :=
  {| custom_hidden := None;
     custom_width := width;
     custom_align := Some align;
     custom_cellOptions_type := cellOptions |}.

Definition config (unit : option string) (c : option CustomConfig) : FieldConfig :=
  {| config_unit := unit; config_custom := c |}.

(** A field with neither display processor nor links. *)
Definition field (name : string) (type : FieldType) (cfg : FieldConfig)
    (values : list value) : Field :=
  {| field_name := name;
     field_type := type;
     field_config := cfg;
     field_values := values;
     field_display := None;
     field_getLinks := None |}.

Definition textCell (s : string) : DataCell :=
  {| cell_value := Plain (Str s);
     cell_link := None;
     cell_color := None;
     cell_background := None |}.

(** Two frames with one string field "A" and one row each. *)
Definition frameA1 : DataFrame :=
  {| fields := [field "A" ft_string (config None (Some (custom None align_auto None)))
                  [Str "a1"]] |}.
Definition frameA2 : DataFrame :=
  {| fields := [field "A" ft_string (config None (Some (custom None align_auto None)))
                  [Str "a2"]] |}.

(** Two frames whose first fields differ in name, width and alignment. *)
Definition frameHost : DataFrame :=
  {| fields := [field "host" ft_string
                  (config None (Some (custom (Some 100%Z) align_left None)))
                  [Str "web-1"]] |}.
Definition frameLoad : DataFrame :=
  {| fields := [field "load" ft_number
                  (config None (Some (custom (Some 200%Z) align_right None)))
                  [Number 1]] |}.

(** A field of a type outside the four tested ones. *)
Definition otherField : Field :=
  field "payload" ft_other (config None (Some (custom None align_auto None)))
    [Str "x"].

(** A time field whose unit contains "time:" after another character. *)
Definition oddTimeField : Field :=
  field "t" ft_time (config (Some "xtime:Y") (Some (custom None align_auto None))) [].
Definition dayField : Field :=
  field "t" ft_time (config (Some "time:YYYY-MM-DD") (Some (custom None align_auto None))) [].
Definition plainTimeField : Field :=
  field "t" ft_time (config (Some "dateTimeAsIso") (Some (custom None align_auto None))) [].

(** A field whose configuration has no [custom] block. *)
Definition bareField : Field :=
  field "A" ft_string (config None None) [Str "a"].

(** A background-coloured field whose display processor answers with a
    colour name, and a well-formed variant with a link on every row. *)
Definition namedColorField : Field :=
  {| field_name := "status";
     field_type := ft_string;
     field_config := config None (Some (custom None align_auto (Some "color-background")));
     field_values := [Str "up"];
     field_display := Some (λ _, {| display_text := "up"; display_color := Some "red" |});
     field_getLinks := None |}.
Definition linkedField : Field :=
  {| field_name := "status";
     field_type := ft_string;
     field_config := config None (Some (custom None align_auto (Some "color-background")));
     field_values := [Str "up"];
     field_display := Some (λ _, {| display_text := "up"; display_color := Some "#73BF69" |});
     field_getLinks :=
       Some (λ _, [ {| link_title := "Details"; link_href := "/d/1" |};
                    {| link_title := "Logs"; link_href := "/d/2" |} ]) |}.

(** A dashboard of three table panels, each with its data loaded. *)
Definition panel (id : Z) (name : string) : PanelModel :=
  {| panel_id := id;
     panel_type := "table";
     panel_title := name;
     panel_emits :=
       [ {| state := Loading; series := [] |};
         {| state := Done;
            series := [ {| fields := [field name ft_string
                                       (config None (Some (custom None align_auto None)))
                                       [Str name]] |} ] |} ] |}.

Definition board : DashboardModel :=
  {| dashboard_title := "board";
     dashboard_uid := "uid";
     panels := [panel 1 "P1"; panel 2 "P2"; panel 3 "P3"] |}.

Definition fetchImage (d : DashboardModel) (p : PanelModel) : result string :=
  Ok "png".

(** A runtime whose downloads all reject, as [waitForData] does on an
    error state or on its timer. *)
Definition failingRuntime : ShareReport.GrafanaRuntime :=
  {| ShareReport.runDownloadZip := Throw (Rejected "Timeout exceeded, no data received");
     ShareReport.runDownloadCsv := Throw (Rejected "Timeout exceeded, no data received");
     ShareReport.runDownloadXlsx := Throw (Rejected "Timeout exceeded, no data received") |}.

Definition workingRuntime : ShareReport.GrafanaRuntime :=
  {| ShareReport.runDownloadZip := Ok ();
     ShareReport.runDownloadCsv := Ok ();
     ShareReport.runDownloadXlsx := Ok () |}.

(** A frame without fields. *)
Definition emptyFrame : DataFrame := {| fields := [] |}.

(** A frame whose only field is named after an inherited property. *)
Definition constructorFrame : DataFrame :=
  {| fields := [field "constructor" ft_string
                  (config None (Some (custom None align_auto None)))
                  [Str "x"]] |}.

(** A time field with a custom time-of-day format. *)
Definition timeOfDayField : Field :=
  field "t" ft_time (config (Some "time:HH:mm") (Some (custom None align_auto None))) [].

(** A linked field in [color-text] mode whose display colour is a name. *)
Definition colorTextField : Field :=
  {| field_name := "status";
     field_type := ft_string;
     field_config := config None (Some (custom None align_auto (Some "color-text")));
     field_values := [Str "up"];
     field_display := Some (λ _, {| display_text := "up"; display_color := Some "red" |});
     field_getLinks := Some (λ _, [ {| link_title := "Details"; link_href := "/d/1" |} ]) |}.

(** The frames that a sample panel loads. *)
Definition panelFrames (name : string) : list DataFrame :=
  [ {| fields := [field name ft_string
                    (config None (Some (custom None align_auto None)))
                    [Str name]] |} ].

(** A panel whose query fails before any data is done. *)
Definition failingPanel (id : Z) (name : string) : PanelModel :=
  {| panel_id := id;
     panel_type := "table";
     panel_title := name;
     panel_emits :=
       [ {| state := Loading; series := [] |};
         {| state := Error; series := [] |};
         {| state := Done; series := panelFrames name |} ] |}.

(** A graph panel, exported as an image. *)
Definition graphPanel (id : Z) (name : string) : PanelModel :=
  {| panel_id := id;
     panel_type := "timeseries";
     panel_title := name;
     panel_emits := [] |}.

Definition brokenBoard : DashboardModel :=
  {| dashboard_title := "board";
     dashboard_uid := "uid";
     panels := [panel 1 "P1"; failingPanel 2 "P2"; panel 3 "P3"] |}.

Definition mixedBoard : DashboardModel :=
  {| dashboard_title := "board";
     dashboard_uid := "uid";
     panels := [graphPanel 1 "G1"; panel 2 "P2"] |}.

(** A dashboard in which two panels share an id. *)
Definition twinBoard : DashboardModel :=
  {| dashboard_title := "board";
     dashboard_uid := "uid";
     panels := [panel 1 "P1"; panel 2 "P2"; panel 1 "P1bis"] |}.

(** The last emission of a panel, for its last result. *)
Definition lastEmission (p : PanelModel) : option PanelData :=
  last (panel_emits p).

End Sample.

(** * Properties *)

Import ContrastSpec.

(** ** The error monad and its loops *)

Section Loops.

Context {St A : Type}.
Implicit Types (step : St → A → result St) (s : St) (l : list A).

Lemma foldM_app step s l1 l2 :
  foldM step s (l1 ++ l2) = (s' ← foldM step s l1; foldM step s' l2).
Proof.
  revert s. induction l1 as [|a l1 IH]; intros s; [done|].
  cbn. destruct (step s a) as [s'|e]; cbn; [apply IH | done].
Qed.

(** A step that throws from every state makes the whole loop throw. *)
Lemma foldM_throws step l a :
  a ∈ l → (∀ s, ∃ e, step s a = Throw e) → ∀ s, ∃ e, foldM step s l = Throw e.
Proof.
  intros Hin Hstep. induction Hin as [a l | a b l _ IH]; intros s; cbn.
  - destruct (Hstep s) as [e ->]. by exists e.
  - destruct (step s b) as [s'|e]; cbn; [by apply IH | by exists e].
Qed.

(** Whatever the loop throws was thrown by one of its steps. *)
Lemma foldM_throw_inv (P : exn → Prop) step l :
  (∀ s a e, step s a = Throw e → P e) →
  ∀ s e, foldM step s l = Throw e → P e.
Proof.
  intros Hstep. induction l as [|a l IH]; intros s e; cbn; [done|].
  destruct (step s a) as [s'|e'] eqn:Hs; cbn.
  - apply IH.
  - intros [= <-]. by eapply Hstep.
Qed.

End Loops.

(** ** Contrast colour *)

Lemma hexValue_table c v : hexValue c = Some v → In (c, v) hexTable.
Proof.
  destruct c as [[] [] [] [] [] [] [] []]; vm_compute; intros H;
    first [discriminate H | injection H as <-; tauto].
Qed.

(** Two hexadecimal digits are read by [parseInt] as their value, and each
    is matched by [.]. *)
Lemma parseInt16_pair c1 c2 v1 v2 :
  hexValue c1 = Some v1 → hexValue c2 = Some v2 →
  parseInt16 (String c1 (String c2 EmptyString)) = ofInteger (16 * v1 + v2)
  ∧ dot c1 = true ∧ dot c2 = true.
Proof.
  intros H1%hexValue_table H2%hexValue_table.
  cbn [In hexTable] in H1, H2.
  repeat (destruct H1 as [H1|H1]; [injection H1 as <- <-|]); try done;
  repeat (destruct H2 as [H2|H2]; [injection H2 as <- <-|]); try done;
  by vm_compute.
Qed.

Lemma getTextColor_six r1 r2 g1 g2 b1 b2 R1 R2 G1 G2 B1 B2 :
  hexValue r1 = Some R1 → hexValue r2 = Some R2 →
  hexValue g1 = Some G1 → hexValue g2 = Some G2 →
  hexValue b1 = Some B1 → hexValue b2 = Some B2 →
  getTextColor (Some (String "#" (String r1 (String r2 (String g1 (String g2
                   (String b1 (String b2 EmptyString))))))))
  = Ok (Some (textColorOf (luminance (ofInteger (16 * R1 + R2))
                                     (ofInteger (16 * G1 + G2))
                                     (ofInteger (16 * B1 + B2))))).
Proof.
  intros Hr1 Hr2 Hg1 Hg2 Hb1 Hb2.
  destruct (parseInt16_pair _ _ _ _ Hr1 Hr2) as (Hr & Dr1 & Dr2).
  destruct (parseInt16_pair _ _ _ _ Hg1 Hg2) as (Hg & Dg1 & Dg2).
  destruct (parseInt16_pair _ _ _ _ Hb1 Hb2) as (Hb & Db1 & Db2).
  unfold getTextColor.
  cbn [String.length Nat.eqb matchChannels].
  rewrite Dr1, Dr2, Dg1, Dg2, Db1, Db2. cbn [andb].
  by rewrite Hr, Hg, Hb.
Qed.

(** The 3-digit shorthand is expanded by doubling each digit. *)
Lemma getTextColor_three r g b :
  getTextColor (Some (String "#" (String r (String g (String b EmptyString)))))
  = getTextColor (Some (String "#" (String r (String r (String g (String g
                   (String b (String b EmptyString)))))))).
Proof. reflexivity. Qed.

(** C6. On an absent colour the contrast computation gives an unset
    result; on a well-formed colour ([#] and three or six hexadecimal
    digits) it gives what the specified computation gives: the shorthand
    expanded by doubling each digit, the channels read as integers,
    L = (0.299 R + 0.587 G + 0.114 B) / 255 evaluated as the host language
    does, black ("000000") when L > 0.5 and white ("FFFFFF") otherwise. *)
Theorem getTextColor_refines_contrast (background : option string) :
  (∀ color, background = Some color → wellFormed color) →
  getTextColor background = Ok (computeContrastColor background).
Proof.
  intros Hwf. destruct background as [color|]; [|done].
  destruct (Hwf color eq_refl) as [[[R G] B] Hch].
  unfold computeContrastColor. cbn [mbind option_bind].
  rewrite Hch. cbn [mbind option_bind].
  unfold channels in Hch.
  destruct color as [|c0 digits]; [done|].
  destruct c0 as [[] [] [] [] [] [] [] []]; try discriminate Hch.
  destruct digits as [|d1 [|d2 [|d3 [|d4 [|d5 [|d6 [|d7 rest]]]]]]];
    cbn [list_ascii_of_string mapM mbind option_bind mret option_ret] in Hch;
    repeat match type of Hch with
      | context [hexValue ?d] =>
          destruct (hexValue d) eqn:?;
          cbn [mbind option_bind mret option_ret] in Hch
      end;
    try discriminate Hch.
  - injection Hch as <- <- <-. rewrite getTextColor_three.
    by erewrite getTextColor_six.
  - injection Hch as <- <- <-. by erewrite getTextColor_six.
  - destruct (mapM hexValue (list_ascii_of_string rest)); discriminate Hch.
Qed.

(** The three colours named by the specification, and the absent one. *)
Lemma getTextColor_refines_contrast_witness :
  getTextColor (Some "#000000") = Ok (Some white)
  ∧ getTextColor (Some "#FFFFFF") = Ok (Some black)
  ∧ getTextColor (Some "#fff") = Ok (Some black)
  ∧ getTextColor None = Ok None.
Proof.
  split; [|split; [|split]].
  - rewrite (getTextColor_refines_contrast (Some "#000000")); [reflexivity|].
    intros color [= <-]. vm_compute. eauto.
  - rewrite (getTextColor_refines_contrast (Some "#FFFFFF")); [reflexivity|].
    intros color [= <-]. vm_compute. eauto.
  - rewrite (getTextColor_refines_contrast (Some "#fff")); [reflexivity|].
    intros color [= <-]. vm_compute. eauto.
  - rewrite (getTextColor_refines_contrast None); [reflexivity|].
    intros color [=].
Defined.

(** The luminance is the binary64 one. On [#DA3AF8] the exact value of
    (0.299 R + 0.587 G + 0.114 B) / 255 is 1/2, the computed one lies just
    above, and the text comes out black. *)
Remark getTextColor_rounding :
  (299 * 218 + 587 * 58 + 114 * 248 = 127500)%Z
  ∧ PrimFloat.ltb 0.5 (relativeLuminance 218 58 248) = true
  ∧ getTextColor (Some "#DA3AF8") = Ok (Some black).
Proof. by vm_compute. Qed.

Lemma getTextColor_malformed color :
  malformed color → getTextColor (Some color) = Throw TypeError.
Proof.
  intros [Hne Hno]. unfold getTextColor.
  destruct color as [|c rest]; [done|].
  by rewrite Hno.
Qed.

Lemma getTextColor_throw_inv c e : getTextColor c = Throw e → e = TypeError.
Proof.
  unfold getTextColor. destruct c as [[|c0 rest]|]; try done.
  destruct (matchChannels _) as [[[r g] b]|]; [done|]. by intros [= <-].
Qed.

(** ** Cells *)

(** C5. A cell of a field in [color-background] mode (background: the
    display colour, foreground: the contrast colour computed from it) that
    has at least one link records the title and target of the first link
    and gets the fixed link colour [#3B5586] as foreground, in place of
    the contrast colour that the same cell keeps when it has no link. The
    cell is produced exactly when the contrast computation returns. *)
Theorem resolveCell_link_color_wins (f : Field) (i : nat) (l : LinkModel)
    (ls : list LinkModel) :
  cellOptionsType f = Some "color-background" →
  linksAt f i = l :: ls →
  resolveCell f i =
    (contrast ← getTextColor (displayColorAt f i);
     Ok {| cell_value := resolveValue f (rawAt f i) (displayAt f i);
           cell_link := Some {| title := link_title l; href := link_href l |};
           cell_color := Some "#3B5586";
           cell_background := displayColorAt f i |})
  ∧ resolveCell (withoutLinks f) i =
      (contrast ← getTextColor (displayColorAt f i);
       Ok {| cell_value := resolveValue f (rawAt f i) (displayAt f i);
             cell_link := None;
             cell_color := contrast;
             cell_background := displayColorAt f i |}).
Proof.
  intros Hopt Hlinks.
  unfold linksAt in Hlinks. unfold displayColorAt, displayAt, rawAt in *.
  split; unfold resolveCell.
  - rewrite Hopt, Hlinks. cbn [bool_decide decide_rel].
    by destruct (getTextColor _).
  - change (cellOptionsType (withoutLinks f)) with (cellOptionsType f).
    rewrite Hopt. cbn [withoutLinks field_values field_display field_getLinks].
    cbn [bool_decide decide_rel from_option].
    by destruct (getTextColor _).
Qed.

Lemma resolveCell_link_color_wins_witness :
  resolveCell Sample.linkedField 0 =
    Ok {| cell_value := Plain (Str "up");
          cell_link := Some {| title := "Details"; href := "/d/1" |};
          cell_color := Some "#3B5586";
          cell_background := Some "#73BF69" |}
  ∧ resolveCell (withoutLinks Sample.linkedField) 0 =
      Ok {| cell_value := Plain (Str "up");
            cell_link := None;
            cell_color := Some "000000";
            cell_background := Some "#73BF69" |}.
Proof.
  destruct (resolveCell_link_color_wins Sample.linkedField 0
              {| link_title := "Details"; link_href := "/d/1" |}
              [ {| link_title := "Logs"; link_href := "/d/2" |} ]
              eq_refl eq_refl) as [Hcell Hbare].
  rewrite Hcell, Hbare. split; reflexivity.
Defined.

(** C4, as the code has it. For a field whose declared type is none of
    time, number, boolean and string, the value resolved for a row is left
    unset ([undefined]), whatever the raw value and the display value, and
    so is the value of every cell of the field. *)
Theorem resolveCell_unlisted_type_unset (f : Field) :
  explicitType (field_type f) = false →
  (∀ v diplay, resolveValue f v diplay = Plain Undefined)
  ∧ (∀ i cell, resolveCell f i = Ok cell → cell_value cell = Plain Undefined).
Proof.
  intros Htype.
  assert (∀ v d, resolveValue f v d = Plain Undefined) as Hvalue.
  { intros v d. unfold resolveValue. by destruct (field_type f). }
  split; [exact Hvalue|]. intros i cell. unfold resolveCell.
  set (colors := if bool_decide _ then _ else _).
  destruct colors as [colors|e]; cbn [mbind result_bind]; [|done].
  rewrite Hvalue. by destruct (from_option _ _ _); intros [= <-].
Qed.

Lemma resolveCell_unlisted_type_unset_witness :
  ∃ cell, resolveCell Sample.otherField 0 = Ok cell
          ∧ cell_value cell = Plain Undefined.
Proof.
  eexists. split; [reflexivity|].
  apply (resolveCell_unlisted_type_unset Sample.otherField eq_refl) with (i := 0).
  reflexivity.
Defined.

(** C4, as stated, fails: the cell of a field of type [other] holding "x"
    does not carry "x". *)
Lemma unlisted_type_is_not_raw :
  ¬ (∀ (f : Field) (i : nat) (cell : DataCell),
       explicitType (field_type f) = false →
       resolveCell f i = Ok cell →
       cell_value cell = Plain (rawAt f i)).
Proof.
  intros H. specialize (H Sample.otherField 0 _ eq_refl eq_refl). discriminate H.
Qed.

Lemma resolveCell_throws f i color :
  cellOptionsType f = Some "color-background" →
  displayColorAt f i = Some color →
  malformed color →
  resolveCell f i = Throw TypeError.
Proof.
  intros Hopt Hcolor Hbad. unfold resolveCell.
  unfold displayColorAt, displayAt, rawAt in Hcolor.
  rewrite Hopt, Hcolor. cbn [bool_decide decide_rel].
  rewrite (getTextColor_malformed _ Hbad). reflexivity.
Qed.

Lemma resolveCell_throw_inv f i e : resolveCell f i = Throw e → e = TypeError.
Proof.
  unfold resolveCell.
  set (links := from_option _ _ _).
  repeat case_bool_decide; cbn [mbind result_bind].
  - by destruct links.
  - destruct (getTextColor _) as [c|e'] eqn:Hc; cbn [mbind result_bind].
    + by destruct links.
    + intros [= <-]. by eapply getTextColor_throw_inv.
  - by destruct links.
Qed.

(** ** Column set-up *)

(** With a [custom] block the column is built, with the defaults of the
    object literal. *)
Lemma newColumn_defaults fullDate name f custom :
  config_custom (field_config f) = Some custom →
  newColumn fullDate name f =
    Ok {| col_name := name;
          col_data := [];
          col_type := field_type f;
          col_hidden := default false (custom_hidden custom);
          col_width := default 150%Z (custom_width custom);
          col_align := match custom_align custom with
                       | Some align_auto => None
                       | a => a
                       end;
          col_fmt := columnFormat fullDate f |}.
Proof. intros H. unfold newColumn. by rewrite H. Qed.

Lemma newColumn_align_never_auto fullDate name f col :
  newColumn fullDate name f = Ok col → col_align col ≠ Some align_auto.
Proof.
  unfold newColumn. destruct (config_custom _) as [custom|]; [|done].
  intros [= <-]. cbn. by destruct (custom_align custom) as [[]|].
Qed.

(** C7, as the code has it. In the column built for a field: a time field
    with unit "time:YYYY-MM-DD" has format "YYYY-MM-DD"; a time field whose
    unit is absent or does not contain "time:" anywhere has the system
    full-date format; a field of another type has no format. *)
Theorem newColumn_format (fullDate name : string) (f : Field) (col : DataColumn) :
  newColumn fullDate name f = Ok col →
  (field_type f = ft_time →
   config_unit (field_config f) = Some "time:YYYY-MM-DD" →
   col_fmt col = Some "YYYY-MM-DD")
  ∧ (field_type f = ft_time →
     (∀ unit, config_unit (field_config f) = Some unit →
              includes "time:" unit = false) →
     col_fmt col = Some fullDate)
  ∧ (field_type f ≠ ft_time → col_fmt col = None).
Proof.
  unfold newColumn. destruct (config_custom _) as [custom|]; [|done].
  intros [= <-]. cbn [col_fmt]. unfold columnFormat.
  split; [|split].
  - intros -> ->. reflexivity.
  - intros -> Hno. destruct (config_unit _) as [unit|]; [|done].
    cbn. by rewrite (Hno unit eq_refl).
  - intros Hne. by destruct (field_type f).
Qed.

Lemma newColumn_format_witness :
  (∃ col, newColumn Sample.fullDate "t" Sample.dayField = Ok col
          ∧ col_fmt col = Some "YYYY-MM-DD")
  ∧ (∃ col, newColumn Sample.fullDate "t" Sample.plainTimeField = Ok col
            ∧ col_fmt col = Some Sample.fullDate)
  ∧ (∃ col, newColumn Sample.fullDate "payload" Sample.otherField = Ok col
            ∧ col_fmt col = None).
Proof.
  split; [|split]; eexists; (split; [reflexivity|]).
  - apply (newColumn_format Sample.fullDate "t" Sample.dayField _ eq_refl);
      reflexivity.
  - apply (newColumn_format Sample.fullDate "t" Sample.plainTimeField _ eq_refl);
      [reflexivity|]. intros unit [= <-]. reflexivity.
  - apply (newColumn_format Sample.fullDate "payload" Sample.otherField _ eq_refl).
    discriminate.
Defined.

(** C7, as stated, fails: the unit "xtime:Y" does not start with "time:",
    and the format of its time column is "xY", not the full-date format. *)
Lemma unit_without_prefix_not_fullDate :
  ¬ (∀ (fullDate name : string) (f : Field) (col : DataColumn),
       newColumn fullDate name f = Ok col →
       field_type f = ft_time →
       (∀ unit, config_unit (field_config f) = Some unit →
                String.prefix "time:" unit = false) →
       col_fmt col = Some fullDate).
Proof.
  intros H.
  specialize (H Sample.fullDate "t" Sample.oddTimeField _ eq_refl eq_refl).
  discriminate H. intros unit [= <-]. reflexivity.
Qed.

(** C9 at a field whose configuration has no [custom] block: the hidden
    flag is computed ([custom?.hidden ?? false] is [false]), then reading
    [custom.width] throws; no column is built and [toObject] throws. *)
Theorem newColumn_throws_without_custom (fullDate : string) :
  default false (config_custom (field_config Sample.bareField) ≫= custom_hidden)
  = false
  ∧ newColumn fullDate "A" Sample.bareField = Throw TypeError
  ∧ toObject fullDate (Some [ {| fields := [Sample.bareField] |} ])
    = Throw TypeError.
Proof. done. Qed.

(** ** What [toObject] throws, and when *)

Lemma pushRow_throws i f fs :
  f ∈ fs → (∃ e, resolveCell f i = Throw e) →
  ∀ j results, ∃ e, pushRow i j fs results = Throw e.
Proof.
  intros Hin [e He]. induction Hin as [f fs | f g fs _ IH]; intros j results; cbn.
  - rewrite He. by exists e.
  - destruct (resolveCell g i) as [cell|e']; cbn; [|by exists e'].
    destruct (results !! pretty j) as [col|]; [by apply IH | by exists TypeError].
Qed.

Lemma pushRow_throw_inv i fs : ∀ j results e,
  pushRow i j fs results = Throw e → e = TypeError.
Proof.
  induction fs as [|f fs IH]; intros j results e; cbn; [done|].
  destruct (resolveCell f i) as [cell|e'] eqn:Hc; cbn.
  - destruct (results !! pretty j); [apply IH | by intros [= <-]].
  - intros [= <-]. by eapply resolveCell_throw_inv.
Qed.

Lemma declareColumns_throw_inv fullDate series fs : ∀ i results e,
  declareColumns fullDate series i fs results = Throw e → e = TypeError.
Proof.
  induction fs as [|f fs IH]; intros i results e; cbn; [done|].
  destruct (truthyAt results _); cbn; [apply IH|].
  unfold newColumn. destruct (config_custom _); cbn; [apply IH | by intros [= <-]].
Qed.

Lemma toObject_throw_inv fullDate data e :
  toObject fullDate data = Throw e → e = TypeError.
Proof.
  destruct data as [data|]; [|done]. unfold toObject.
  apply (foldM_throw_inv (λ e, e = TypeError)).
  intros results series e'. unfold addSeries.
  destruct (fields series) as [|f0 rest]; [done|].
  destruct (declareColumns _ _ _ _ _) as [results'|e''] eqn:Hd;
    cbn [mbind result_bind].
  - apply (foldM_throw_inv (λ e, e = TypeError)).
    intros acc i e''. apply pushRow_throw_inv.
  - intros [= <-]. by eapply declareColumns_throw_inv.
Qed.

(** C8, as the code has it. When a cell of a field in [color-background]
    mode has a display colour that is not empty and fails the pattern
    [#RRGGBB] (3-digit expansion included), the contrast computation
    throws, nothing catches it, and [toObject] throws as a whole: no sheet
    is returned, for that cell or any other. *)
Theorem toObject_aborts_on_malformed_color (fullDate : string)
    (data : list DataFrame) (series : DataFrame) (f : Field) (i : nat)
    (color : string) :
  series ∈ data →
  f ∈ fields series →
  i < rowCount series →
  cellOptionsType f = Some "color-background" →
  displayColorAt f i = Some color →
  malformed color →
  getTextColor (Some color) = Throw TypeError
  ∧ resolveCell f i = Throw TypeError
  ∧ toObject fullDate (Some data) = Throw TypeError.
Proof.
  intros Hseries Hf Hi Hopt Hcolor Hbad.
  split; [by apply getTextColor_malformed|].
  split; [by eapply resolveCell_throws|].
  cut (∃ e, toObject fullDate (Some data) = Throw e).
  { intros [e He]. by rewrite He, (toObject_throw_inv _ _ _ He). }
  unfold toObject. eapply foldM_throws; [exact Hseries|].
  intros results. unfold addSeries.
  unfold rowCount in Hi.
  destruct (fields series) as [|f0 rest] eqn:Hfields; [by apply elem_of_nil in Hf|].
  cbn [head from_option] in Hi.
  destruct (declareColumns _ _ _ _ _) as [results'|e];
    cbn [mbind result_bind]; [|by exists e].
  eapply foldM_throws.
  - apply elem_of_seq. split; [lia | exact Hi].
  - intros acc. eapply pushRow_throws; [exact Hf|].
    exists TypeError. by eapply resolveCell_throws.
Qed.

Lemma toObject_aborts_on_malformed_color_witness :
  toObject Sample.fullDate
    (Some [Sample.frameA1; {| fields := [Sample.namedColorField] |}])
  = Throw TypeError.
Proof.
  eapply (toObject_aborts_on_malformed_color Sample.fullDate _
            {| fields := [Sample.namedColorField] |} Sample.namedColorField 0 "red").
  - apply list_elem_of_lookup. by exists 1.
  - apply list_elem_of_lookup. by exists 0.
  - cbn. lia.
  - reflexivity.
  - reflexivity.
  - by split.
Defined.

(** C8, as stated, fails: with the display colour "red" the contrast
    computation throws and the formatter returns no sheet at all. *)
Lemma malformed_color_aborts_export :
  malformed "red"
  ∧ getTextColor (Some "red") = Throw TypeError
  ∧ ¬ (∃ sheet, toObject Sample.fullDate
                  (Some [ {| fields := [Sample.namedColorField] |} ]) = Ok sheet).
Proof.
  split; [by split|]. split; [reflexivity|].
  intros [sheet H]. discriminate H.
Qed.

(** ** What [toObject] computes on well-behaved frames *)

(** On a sheet with numeral keys the guard of line 330 lets every safe
    display name through. *)
Lemma truthyAt_safe results name :
  numeralKeys results → safeName name → truthyAt results name = false.
Proof.
  intros Hkeys [Hnum Hproto]. unfold truthyAt.
  rewrite (bool_decide_eq_false_2 _ Hproto), orb_false_r.
  apply bool_decide_eq_false_2. intros [n ->]%Hkeys. by eapply Hnum.
Qed.

Lemma numeralKeys_insert results (n : nat) col :
  numeralKeys results → numeralKeys (<[pretty n := col]> results).
Proof.
  intros Hkeys key. destruct (decide (key = pretty n)) as [-> | Hne]; [by exists n|].
  rewrite lookup_insert_ne by done. apply Hkeys.
Qed.

Lemma newColumn_emptyColumn fullDate f :
  is_Some (config_custom (field_config f)) →
  newColumn fullDate (field_name f) f = Ok (emptyColumn fullDate f).
Proof.
  intros [custom H]. rewrite (newColumn_defaults _ _ _ _ H).
  unfold emptyColumn. by rewrite H.
Qed.

(** The set-up loop stores a fresh, empty column at each position of the
    frame, whatever was stored there, and leaves the other keys alone. *)
Lemma declareColumns_spec fullDate series fs : ∀ i results,
  numeralKeys results →
  (∀ f, f ∈ fs → safeName (field_name f) ∧ is_Some (config_custom (field_config f))) →
  ∃ results',
    declareColumns fullDate series i fs results = Ok results'
    ∧ numeralKeys results'
    ∧ (∀ k f, fs !! k = Some f →
              results' !! pretty (i + k) = Some (emptyColumn fullDate f))
    ∧ (∀ key, (∀ k, k < length fs → key ≠ pretty (i + k)) →
              results' !! key = results !! key).
Proof.
  induction fs as [|f fs IH]; intros i results Hkeys Hfs.
  - exists results. split; [done|]. split; [done|].
    split; [intros k f [=] | done].
  - destruct (Hfs f) as [Hname Hcustom]; [left|].
    cbn [declareColumns]. unfold getFieldDisplayName.
    rewrite (truthyAt_safe _ _ Hkeys Hname), (newColumn_emptyColumn _ _ Hcustom).
    cbn [mbind result_bind].
    destruct (IH (S i) (<[pretty i := emptyColumn fullDate f]> results))
      as (results' & Hrun & Hkeys' & Hcols & Hrest).
    { by apply numeralKeys_insert. }
    { intros g Hg. apply Hfs. by right. }
    exists results'. split; [exact Hrun|]. split; [exact Hkeys'|]. split.
    + intros [|k] g Hg.
      * injection Hg as <-. rewrite Hrest.
        -- rewrite Nat.add_0_r. apply lookup_insert_eq.
        -- intros k _ Heq%(inj pretty). lia.
      * cbn in Hg. replace (i + S k) with (S i + k) by lia. by apply Hcols.
    + intros key Hkey. rewrite Hrest.
      * apply lookup_insert_ne. intros <-. apply (Hkey 0); [cbn; lia|].
        by rewrite Nat.add_0_r.
      * intros k Hk. replace (S i + k) with (i + S k) by lia.
        apply Hkey. cbn. lia.
Qed.

Lemma pushCell_appendCells cell col : pushCell cell col = appendCells [cell] col.
Proof. reflexivity. Qed.

Lemma appendCells_app cells1 cells2 col :
  appendCells (cells1 ++ cells2) col = appendCells cells2 (appendCells cells1 col).
Proof. unfold appendCells. cbn. by rewrite (assoc_L (++)). Qed.

Lemma appendCells_nil col : appendCells [] col = col.
Proof. destruct col. unfold appendCells. cbn. by rewrite (right_id_L [] (++)). Qed.

Lemma cellsOf_S f n : cellsOf f (S n) = cellsOf f n ++ option_list (cellOf f n).
Proof.
  unfold cellsOf. rewrite seq_S, omap_app. cbn. by destruct (cellOf f n).
Qed.

(** One row: every column of the frame gets the cell of its field. *)
Lemma pushRow_spec i fs : ∀ j results,
  (∀ k f, fs !! k = Some f →
          is_Some (results !! pretty (j + k)) ∧ is_Some (cellOf f i)) →
  ∃ results',
    pushRow i j fs results = Ok results'
    ∧ (∀ k f, fs !! k = Some f →
              results' !! pretty (j + k)
              = appendCells (option_list (cellOf f i)) <$> results !! pretty (j + k))
    ∧ (∀ key, (∀ k, k < length fs → key ≠ pretty (j + k)) →
              results' !! key = results !! key).
Proof.
  induction fs as [|f fs IH]; intros j results Hfs.
  - exists results. split; [done|]. split; [intros k f [=] | done].
  - destruct (Hfs 0 f eq_refl) as [[col Hcol] [cell Hcell]].
    rewrite Nat.add_0_r in Hcol.
    cbn [pushRow]. unfold cellOf in Hcell.
    destruct (resolveCell f i) as [cell'|] eqn:Hres; [|done].
    injection Hcell as ->. cbn [mbind result_bind]. rewrite Hcol.
    destruct (IH (S j) (<[pretty j := pushCell cell col]> results))
      as (results' & Hrun & Hcols & Hrest).
    { intros k g Hg. destruct (Hfs (S k) g Hg) as [Hsome Hok].
      split; [|done]. rewrite lookup_insert_ne.
      - by replace (S j + k) with (j + S k) by lia.
      - intros Heq%(inj pretty). lia. }
    exists results'. split; [exact Hrun|]. split.
    + intros [|k] g Hg.
      * injection Hg as <-. rewrite Nat.add_0_r, Hrest.
        -- rewrite lookup_insert_eq, Hcol. unfold cellOf. by rewrite Hres.
        -- intros k _ Heq%(inj pretty). lia.
      * cbn in Hg. replace (j + S k) with (S j + k) by lia.
        rewrite (Hcols _ _ Hg). rewrite lookup_insert_ne; [done|].
        intros Heq%(inj pretty). lia.
    + intros key Hkey. rewrite Hrest.
      * apply lookup_insert_ne. intros <-. apply (Hkey 0); [cbn; lia|].
        by rewrite Nat.add_0_r.
      * intros k Hk. replace (S j + k) with (j + S k) by lia.
        apply Hkey. cbn. lia.
Qed.

(** All rows: every column of the frame gets the cells of its field, in
    row order. *)
Lemma pushRows_spec fs n : ∀ results,
  (∀ k f, fs !! k = Some f →
          is_Some (results !! pretty k) ∧ ∀ i, i < n → is_Some (cellOf f i)) →
  ∃ results',
    foldM (λ acc i, pushRow i 0 fs acc) results (seq 0 n) = Ok results'
    ∧ (∀ k f, fs !! k = Some f →
              results' !! pretty k = appendCells (cellsOf f n) <$> results !! pretty k)
    ∧ (∀ key, (∀ k, k < length fs → key ≠ pretty k) →
              results' !! key = results !! key).
Proof.
  induction n as [|n IH]; intros results Hfs.
  - exists results. split; [done|]. split; [|done].
    intros k f Hf. destruct (Hfs k f Hf) as [[col ->] _]. cbn.
    by rewrite appendCells_nil.
  - destruct (IH results) as (results1 & Hrun1 & Hcols1 & Hrest1).
    { intros k f Hf. destruct (Hfs k f Hf) as [Hsome Hok].
      split; [done|]. intros i Hi. apply Hok. lia. }
    destruct (pushRow_spec n fs 0 results1) as (results' & Hrun & Hcols & Hrest).
    { intros k f Hf. destruct (Hfs k f Hf) as [[col Hcol] Hok].
      split; [|apply Hok; lia]. cbn. rewrite (Hcols1 _ _ Hf), Hcol. by eexists. }
    exists results'. split; [|split].
    + rewrite seq_S, foldM_app, Hrun1. cbn [mbind result_bind foldM Nat.add].
      by rewrite Hrun.
    + intros k f Hf. specialize (Hcols k f Hf). cbn in Hcols.
      rewrite Hcols, (Hcols1 _ _ Hf), cellsOf_S.
      destruct (results !! pretty k) as [col|]; [|done]. cbn.
      by rewrite appendCells_app.
    + intros key Hkey. rewrite Hrest, Hrest1; [done|exact Hkey|exact Hkey].
Qed.

(** One frame: at each of its positions the column becomes the one this
    frame alone gives; the other positions keep theirs. *)
Lemma addSeries_spec fullDate results series :
  numeralKeys results → wellBehaved series →
  ∃ results',
    addSeries fullDate results series = Ok results'
    ∧ numeralKeys results'
    ∧ ∀ j, results' !! pretty j
           = from_option Some (results !! pretty j) (frameColumn fullDate series j).
Proof.
  intros Hkeys Hgood. unfold addSeries, frameColumn, wellBehaved, rowCount in *.
  destruct (fields series) as [|f0 rest] eqn:Hfields.
  { exists results. split; [done|]. split; [done|]. by intros j. }
  set (fs := f0 :: rest) in *. cbn [head from_option] in *.
  set (n := length (field_values f0)) in *.
  destruct (declareColumns_spec fullDate series fs 0 results Hkeys)
    as (results1 & Hrun1 & Hkeys1 & Hcols1 & Hrest1).
  { intros f Hf. destruct (Hgood f Hf) as (? & ? & _). done. }
  destruct (pushRows_spec fs n results1) as (results' & Hrun & Hcols & Hrest).
  { intros k f Hf. split.
    - rewrite <- (Nat.add_0_l k), (Hcols1 _ _ Hf). by eexists.
    - apply Hgood. apply list_elem_of_lookup. by exists k. }
  exists results'. rewrite Hrun1. cbn [mbind result_bind].
  split; [exact Hrun|]. split.
  - intros key Hsome.
    destruct (decide (key ∈ (pretty <$> seq 0 (length fs)))) as [Hin|Hout].
    + apply list_elem_of_fmap in Hin as (k & -> & _). by exists k.
    + apply Hkeys1. rewrite <- Hrest; [done|].
      intros k Hk ->. apply Hout, list_elem_of_fmap. exists k.
      split; [done|]. apply elem_of_seq. lia.
  - intros j. destruct (fs !! j) as [f|] eqn:Hj; cbn [fmap option_fmap option_map from_option].
    + rewrite (Hcols _ _ Hj). rewrite <- (Nat.add_0_l j) at 1.
      by rewrite (Hcols1 _ _ Hj).
    + apply lookup_ge_None in Hj.
      rewrite Hrest, Hrest1; [done| |];
        intros k Hk Heq%(inj pretty); lia.
Qed.

Lemma foldM_addSeries_spec fullDate data : ∀ results,
  numeralKeys results → (∀ series, series ∈ data → wellBehaved series) →
  ∃ sheet,
    foldM (addSeries fullDate) results data = Ok sheet
    ∧ numeralKeys sheet
    ∧ ∀ j, sheet !! pretty j = lastColumn fullDate data j (results !! pretty j).
Proof.
  induction data as [|series data IH]; intros results Hkeys Hgood.
  - by exists results.
  - destruct (addSeries_spec fullDate results series Hkeys) as (results1 & Hrun1 & Hkeys1 & Hcols1).
    { apply Hgood. by left. }
    destruct (IH results1 Hkeys1) as (sheet & Hrun & Hkeys' & Hcols).
    { intros s Hs. apply Hgood. by right. }
    exists sheet. cbn [foldM]. rewrite Hrun1. cbn [mbind result_bind].
    split; [exact Hrun|]. split; [exact Hkeys'|].
    intros j. rewrite Hcols, Hcols1. reflexivity.
Qed.

Lemma toObject_wellBehaved_spec fullDate data :
  (∀ series, series ∈ data → wellBehaved series) →
  ∃ sheet,
    toObject fullDate (Some data) = Ok sheet
    ∧ numeralKeys sheet
    ∧ ∀ j, sheet !! pretty j = lastColumn fullDate data j None.
Proof.
  intros Hgood.
  destruct (foldM_addSeries_spec fullDate data ∅) as (sheet & Hrun & Hkeys & Hcols);
    [by intros key [? ?] | done |].
  exists sheet. split; [exact Hrun|]. split; [exact Hkeys|].
  intros j. by rewrite Hcols, lookup_empty.
Qed.

(** X8. On well-behaved frames [toObject] returns a sheet; its keys are
    numerals, and position [j] holds the column of the last frame that has
    a field there: the metadata of that field and the rows of that frame
    only. *)
Theorem toObject_last_frame_wins (fullDate : string) (data : list DataFrame) :
  (∀ series, series ∈ data → wellBehaved series) →
  ∃ sheet,
    toObject fullDate (Some data) = Ok sheet
    ∧ (∀ key, is_Some (sheet !! key) → ∃ j : nat, key = pretty j)
    ∧ ∀ j, sheet !! pretty j = lastColumn fullDate data j None.
Proof. apply toObject_wellBehaved_spec. Qed.

Lemma cellsOf_length f n :
  (∀ i, i < n → is_Some (cellOf f i)) → length (cellsOf f n) = n.
Proof.
  induction n as [|n IH]; intros Hok; [done|].
  rewrite cellsOf_S, length_app, IH by (intros i Hi; apply Hok; lia).
  destruct (Hok n) as [cell ->]; [lia|]. cbn. lia.
Qed.

Lemma lastColumn_is_Some fullDate data j : ∀ before,
  is_Some (lastColumn fullDate data j before)
  ↔ is_Some before ∨ ∃ series, series ∈ data ∧ j < length (fields series).
Proof.
  unfold lastColumn.
  induction data as [|series data IH]; intros before; cbn [foldl].
  - split; [by left|]. intros [H|(s & Hs & _)]; [done|]. by apply elem_of_nil in Hs.
  - rewrite IH. unfold frameColumn.
    destruct (fields series !! j) as [f|] eqn:Hj; cbn [fmap option_fmap option_map from_option].
    + split; intros _.
      * right. exists series. split; [by left|]. by eapply lookup_lt_Some.
      * left. by eexists.
    + apply lookup_ge_None in Hj. split.
      * intros [H|(s & Hs & Hlt)]; [by left|]. right. exists s. split; [by right|done].
      * intros [H|(s & Hs & Hlt)]; [by left|].
        apply elem_of_cons in Hs as [-> | Hs]; [lia|]. right. by exists s.
Qed.

Lemma maxFields_lt data j :
  j < maxFields data ↔ ∃ series, series ∈ data ∧ j < length (fields series).
Proof.
  induction data as [|series data IH]; cbn [maxFields foldr].
  - split; [lia|]. intros (s & Hs & _). by apply elem_of_nil in Hs.
  - fold (maxFields data). rewrite Nat.max_lt_iff, IH. split.
    + intros [H|(s & Hs & Hlt)].
      * exists series. split; [by left|done].
      * exists s. split; [by right|done].
    + intros (s & Hs & Hlt). apply elem_of_cons in Hs as [-> | Hs]; [by left|].
      right. by exists s.
Qed.

Lemma size_numeral_sheet (sheet : DataSheet) (m : nat) :
  numeralKeys sheet →
  (∀ j, is_Some (sheet !! pretty j) ↔ j < m) →
  size sheet = m.
Proof.
  intros Hkeys Hm.
  assert (dom sheet = list_to_set (pretty <$> seq 0 m)) as Hdom.
  { apply set_eq. intros key.
    rewrite elem_of_dom, elem_of_list_to_set, list_elem_of_fmap. split.
    - intros Hsome. destruct (Hkeys key Hsome) as [j ->].
      exists j. split; [done|]. apply elem_of_seq. apply Hm in Hsome. lia.
    - intros (j & -> & Hj). apply Hm. apply elem_of_seq in Hj. lia. }
  rewrite <- size_dom, Hdom, size_list_to_set.
  - by rewrite length_fmap, length_seq.
  - apply (NoDup_fmap_2 _). apply NoDup_seq.
Qed.

(** X9. On well-behaved frames the number of columns of the sheet is the
    largest number of fields of a frame. *)
Theorem toObject_column_count (fullDate : string) (data : list DataFrame) :
  (∀ series, series ∈ data → wellBehaved series) →
  ∃ sheet, toObject fullDate (Some data) = Ok sheet ∧ size sheet = maxFields data.
Proof.
  intros Hgood.
  destruct (toObject_wellBehaved_spec fullDate data Hgood)
    as (sheet & Hrun & Hkeys & Hcols).
  exists sheet. split; [exact Hrun|].
  apply size_numeral_sheet; [exact Hkeys|].
  intros j. rewrite Hcols, lastColumn_is_Some, maxFields_lt.
  split; [intros [[? [=]]|H]; exact H | by right].
Qed.

(** X10. With a single well-behaved frame every field gets its column,
    with the metadata of the field and one cell per row. *)
Theorem toObject_single_frame (fullDate : string) (series : DataFrame) :
  wellBehaved series →
  ∃ sheet,
    toObject fullDate (Some [series]) = Ok sheet
    ∧ size sheet = length (fields series)
    ∧ ∀ j f, fields series !! j = Some f →
        ∃ col, sheet !! pretty j = Some col
               ∧ columnSpec col = columnSpec (emptyColumn fullDate f)
               ∧ length (col_data col) = rowCount series.
Proof.
  intros Hgood.
  assert (∀ s, s ∈ [series] → wellBehaved s) as Hall.
  { by intros s ->%list_elem_of_singleton. }
  destruct (toObject_wellBehaved_spec fullDate [series] Hall)
    as (sheet & Hrun & Hkeys & Hcols).
  exists sheet. split; [exact Hrun|]. split.
  - apply size_numeral_sheet; [exact Hkeys|].
    intros j. rewrite Hcols, lastColumn_is_Some. split.
    + intros [[? [=]]|(s & ->%list_elem_of_singleton & Hlt)]. exact Hlt.
    + intros Hlt. right. exists series. split; [by left|exact Hlt].
  - intros j f Hj. rewrite Hcols. unfold lastColumn, frameColumn. cbn [foldl].
    rewrite Hj. cbn. eexists. split; [done|]. split; [done|]. cbn.
    apply cellsOf_length. apply Hgood. apply list_elem_of_lookup. by exists j.
Qed.

(** Numerals are made of digits, so a name with another character, or
    none, is not a numeral. *)
Lemma pretty_N_char_digit x : isDigit (pretty_N_char x) = true.
Proof. unfold pretty_N_char. by repeat case_match. Qed.

Lemma pretty_N_go_allDigits x : ∀ s,
  allDigits s = true → allDigits (pretty_N_go x s) = true.
Proof.
  induction (N.lt_wf_0 x) as [x _ IH]; intros s Hs.
  destruct (decide (x = 0%N)) as [-> | Hx]; [by rewrite pretty_N_go_0|].
  rewrite pretty_N_go_step by lia. apply IH.
  - apply N.div_lt; lia.
  - cbn [allDigits]. by rewrite pretty_N_char_digit.
Qed.

Lemma pretty_nat_allDigits (n : nat) : allDigits (pretty n) = true.
Proof.
  unfold pretty, pretty_nat, pretty, pretty_N.
  case_decide; [done|]. by apply pretty_N_go_allDigits.
Qed.

Lemma safeName_intro name :
  allDigits name = false → name ∉ objectPrototypeKeys → safeName name.
Proof.
  intros Hname Hproto. split; [|done].
  intros n ->. by rewrite pretty_nat_allDigits in Hname.
Qed.

(** The two sample frames with a field "A" are well-behaved, and the
    general result applies to them. *)
Lemma sample_frames_wellBehaved :
  ∀ series, series ∈ [Sample.frameA1; Sample.frameA2] → wellBehaved series.
Proof.
  intros series Hin f Hf.
  assert (series = Sample.frameA1 ∨ series = Sample.frameA2) as [-> | ->]
    by (repeat (apply elem_of_cons in Hin as [-> | Hin]; [tauto|]); by apply elem_of_nil in Hin).
  all: apply list_elem_of_singleton in Hf as ->.
  all: split; [apply safeName_intro; [done|]|split; [by eexists|]].
  all: try (intros i Hi; cbn in Hi; assert (i = 0) as -> by lia; by eexists).
  all: unfold objectPrototypeKeys; rewrite !elem_of_cons, elem_of_nil; 
       intros H; repeat (destruct H as [H|H]; [discriminate H|]); done.
Qed.

Lemma toObject_last_frame_wins_witness :
  ∃ sheet,
    toObject Sample.fullDate (Some [Sample.frameA1; Sample.frameA2]) = Ok sheet
    ∧ sheet !! "0"
      = frameColumn Sample.fullDate Sample.frameA2 0.
Proof.
  destruct (toObject_last_frame_wins Sample.fullDate _ sample_frames_wellBehaved)
    as (sheet & Hrun & _ & Hcols).
  exists sheet. split; [exact Hrun|]. exact (Hcols 0).
Defined.

Lemma toObject_column_count_witness :
  ∃ sheet,
    toObject Sample.fullDate (Some [Sample.frameA1; Sample.frameA2]) = Ok sheet
    ∧ size sheet = 1.
Proof.
  exact (toObject_column_count Sample.fullDate _ sample_frames_wellBehaved).
Defined.

Lemma toObject_single_frame_witness :
  ∃ sheet,
    toObject Sample.fullDate (Some [Sample.frameA1]) = Ok sheet
    ∧ size sheet = 1
    ∧ ∃ col, sheet !! "0" = Some col
             ∧ col_name col = "A" ∧ col_width col = 150%Z
             ∧ length (col_data col) = 1.
Proof.
  destruct (toObject_single_frame Sample.fullDate Sample.frameA1)
    as (sheet & Hrun & Hsize & Hcols).
  { apply sample_frames_wellBehaved. by left. }
  exists sheet. split; [exact Hrun|]. split; [exact Hsize|].
  destruct (Hcols 0 _ eq_refl) as (col & Hcol & Hspec & Hlen).
  exists col. split; [exact Hcol|]. by injection Hspec as -> _ _ -> _ _.
Defined.

(** ** Frames after the first *)

(** C1 at two frames with one field "A" and one row each: the sheet has
    its one column, and that column holds the row of the second frame
    only, where the two frames count two rows for position 0. *)
Theorem toObject_later_frame_restarts_column :
  ∃ sheet,
    toObject Sample.fullDate (Some [Sample.frameA1; Sample.frameA2]) = Ok sheet
    ∧ size sheet = 1
    ∧ col_data <$> sheet !! "0" = Some [Sample.textCell "a2"]
    ∧ rowCount Sample.frameA1 + rowCount Sample.frameA2 = 2.
Proof. eexists. split; [vm_compute; reflexivity|]. done. Qed.

(** C2 at two frames whose first fields differ: after the first frame the
    column at position 0 describes "host"; after the second frame it
    describes "load", the field of the later frame. *)
Theorem toObject_later_frame_replaces_metadata :
  (∃ first,
     toObject Sample.fullDate (Some [Sample.frameHost]) = Ok first
     ∧ columnSpec <$> first !! "0"
       = Some ("host", ft_string, false, 100%Z, Some align_left, None))
  ∧ (∃ sheet,
       toObject Sample.fullDate (Some [Sample.frameHost; Sample.frameLoad])
       = Ok sheet
       ∧ columnSpec <$> sheet !! "0"
         = Some ("load", ft_number, false, 200%Z, Some align_right, None)).
Proof. split; (eexists; split; [vm_compute; reflexivity|done]). Qed.

(** ** Panel selection *)

Lemma selectPanels_length ids d :
  (length (selectPanels ids d) ≤ length (panels d))%nat.
Proof.
  unfold selectPanels. case_bool_decide; [apply length_filter | done].
Qed.




(** C3 on a dashboard of panels 1, 2, 3 with the selection [3]: the
    selection holds panel "P3" alone, and each of the three downloads
    exports panel "P1", the first of the dashboard. *)
Theorem downloads_export_leading_panels :
  panel_title <$> selectPanels [3%Z] Sample.board = ["P3"]
  ∧ csv_title <$> (downloadCsv [3%Z] (Some Sample.board)).1 = ["P1"]
  ∧ (downloadCsv [3%Z] (Some Sample.board)).2 = Ok ()
  ∧ downloadZip [3%Z] (Some Sample.board)
    = Ok (Some [ {| zip_number := 1;
                    zip_frames := [ {| fields := [Sample.field "P1" ft_string
                        (Sample.config None (Some (Sample.custom None align_auto None)))
                        [Str "P1"]] |} ] |} ])
  ∧ (∃ workbook,
       downloadXlsx Sample.fullDate Sample.fetchImage [3%Z] (Some Sample.board)
       = Ok (Some workbook)
       ∧ sheet_name <$> workbook = ["1-P1"]).
Proof.
  split; [done|]. split; [done|]. split; [done|]. split; [done|].
  eexists. split; [vm_compute; reflexivity|done].
Qed.

(** ** The export dialog *)

Section Dialog.
Import ShareReport.

Lemma handle_keeps_loading during s :
  loading (foldl handle s during) = loading s.
Proof.
  revert s. induction during as [|e during IH]; intros s; [done|].
  cbn. rewrite IH. by destruct e.
Qed.

(** When the download resolves, the flag is back to [false]. *)
Lemma onDownload_resolved runtime during s :
  (onDownload runtime during s).2 = Ok () →
  loading (onDownload runtime during s).1 = false.
Proof.
  unfold onDownload. by destruct (match reportType _ with csv => _ | xlsx => _ end).
Qed.

(** When it rejects, the flag stays [true]. *)
Lemma onDownload_rejected runtime during s e :
  (onDownload runtime during s).2 = Throw e →
  loading (onDownload runtime during s).1 = true.
Proof.
  unfold onDownload.
  destruct (match reportType _ with csv => _ | xlsx => _ end); [done|].
  intros _. cbn [fst]. by rewrite handle_keeps_loading.
Qed.

(** C10 with downloads that reject: from every state of the dialog and
    whatever the user does meanwhile, [onDownload] ends rejected and
    leaves the in-progress flag set. *)
Theorem onDownload_rejection_leaves_loading (during : list UiEvent) (s : State) :
  (onDownload (Some Sample.failingRuntime) during s).2
    = Throw (Rejected "Timeout exceeded, no data received")
  ∧ loading (onDownload (Some Sample.failingRuntime) during s).1 = true.
Proof.
  assert ((onDownload (Some Sample.failingRuntime) during s).2
          = Throw (Rejected "Timeout exceeded, no data received")) as H.
  { unfold onDownload. cbn. by destruct (reportType s), (zipped s). }
  split; [exact H|]. by eapply onDownload_rejected.
Qed.

End Dialog.

(** * Further properties *)

(** ** Waiting for the data of a panel *)

Lemma settle_pending pre rest :
  forallb pending pre = true → settle (pre ++ rest) = settle rest.
Proof.
  induction pre as [|e pre IH]; [done|]. cbn [forallb app settle].
  intros [He Hpre]%andb_prop. unfold pending in He.
  destruct (state e); try done; by apply IH.
Qed.

(** X1. When the first emission that is [Done] or [Error] is [Done],
    [waitForData] resolves with the series of that emission; what is
    emitted before and after it does not count. *)
Theorem waitForData_first_done (d : DashboardModel) (p : PanelModel)
    (pre post : list PanelData) (next : PanelData) :
  panel_emits p = pre ++ next :: post →
  forallb pending pre = true →
  state next = Done →
  waitForData d p = Ok (series next).
Proof.
  intros Hemits Hpre Hdone. unfold waitForData.
  rewrite Hemits, settle_pending by done. cbn. by rewrite Hdone.
Qed.

Lemma waitForData_first_done_witness :
  waitForData Sample.board (Sample.panel 1 "P1") = Ok (Sample.panelFrames "P1").
Proof.
  apply (waitForData_first_done Sample.board (Sample.panel 1 "P1")
           [ {| state := Loading; series := [] |} ] []
           {| state := Done; series := Sample.panelFrames "P1" |});
    reflexivity.
Defined.

(** X2. When the first emission that is [Done] or [Error] is [Error],
    [waitForData] rejects, also when a [Done] emission follows. *)
Theorem waitForData_first_error (d : DashboardModel) (p : PanelModel)
    (pre post : list PanelData) (next : PanelData) :
  panel_emits p = pre ++ next :: post →
  forallb pending pre = true →
  state next = Error →
  waitForData d p = Throw (Rejected "Error loading data").
Proof.
  intros Hemits Hpre Herr. unfold waitForData.
  rewrite Hemits, settle_pending by done. cbn. by rewrite Herr.
Qed.

Lemma waitForData_first_error_witness :
  waitForData Sample.brokenBoard (Sample.failingPanel 2 "P2")
  = Throw (Rejected "Error loading data").
Proof.
  apply (waitForData_first_error Sample.brokenBoard (Sample.failingPanel 2 "P2")
           [ {| state := Loading; series := [] |} ]
           [ {| state := Done; series := Sample.panelFrames "P2" |} ]
           {| state := Error; series := [] |});
    reflexivity.
Defined.

(** X3. [waitForData] resolves exactly when some [Done] emission comes
    before any [Error] one; when no emission is [Done] or [Error] it
    rejects with the message of the timer. *)
Theorem waitForData_resolves_iff (d : DashboardModel) (p : PanelModel) :
  (is_ok (waitForData d p) = true
   ↔ ∃ pre next post,
       panel_emits p = pre ++ next :: post
       ∧ forallb pending pre = true ∧ state next = Done)
  ∧ (forallb pending (panel_emits p) = true →
     waitForData d p = Throw (Rejected "Timeout exceeded, no data received")).
Proof.
  unfold waitForData. split.
  - induction (panel_emits p) as [|e emits IH]; cbn [settle].
    + split; [done|]. intros (pre & next & post & Heq & _). by destruct pre.
    + destruct (state e) eqn:He.
      1-3: rewrite IH; split.
      1,3,5: intros (pre & next & post & -> & Hpre & Hdone);
             exists (e :: pre), next, post; split; [done|]; split; [|done];
             cbn; unfold pending at 1; by rewrite He.
      1-3: intros (pre & next & post & Heq & Hpre & Hdone);
           destruct pre as [|e' pre];
           [injection Heq as -> ->; congruence|];
           injection Heq as -> ->; exists pre, next, post;
           split; [done|]; split; [|done];
           cbn in Hpre; by apply andb_prop in Hpre as [_ ?].
      * split; [intros _|done]. by exists [], e, emits.
      * split; [done|]. intros (pre & next & post & Heq & Hpre & Hdone).
        destruct pre as [|e' pre]; injection Heq as -> ->; [congruence|].
        cbn in Hpre. unfold pending at 1 in Hpre. by rewrite He in Hpre.
  - induction (panel_emits p) as [|e emits IH]; cbn [settle forallb]; [done|].
    intros [He Hrest]%andb_prop. unfold pending in He.
    destruct (state e); try done; by apply IH.
Qed.

(** ** Outcomes of the contrast computation and of a cell *)

Lemma getTextColor_cases color :
  (malformed color ∧ getTextColor (Some color) = Throw TypeError)
  ∨ (¬ malformed color
     ∧ (getTextColor (Some color) = Ok None ∧ color = ""
        ∨ getTextColor (Some color) = Ok (Some "000000")
        ∨ getTextColor (Some color) = Ok (Some "FFFFFF"))).
Proof.
  unfold malformed, getTextColor.
  destruct color as [|c0 rest]; [right; split; [by intros [? _]|by left]|].
  destruct (matchChannels _) as [[[r g] b]|].
  - right. split; [by intros [_ ?]|]. right. unfold textColorOf.
    destruct (PrimFloat.ltb _ _); auto.
  - left. by split.
Qed.

(** X13. The contrast computation throws exactly on the colours that are
    not empty and fail the pattern; it gives an unset result exactly on an
    absent or empty colour; any other result is "000000" or "FFFFFF". *)
Theorem getTextColor_outcomes (backgroundColor : option string) :
  ((∃ e, getTextColor backgroundColor = Throw e)
   ↔ ∃ color, backgroundColor = Some color ∧ malformed color)
  ∧ (∀ text, getTextColor backgroundColor = Ok (Some text) →
             text = "000000" ∨ text = "FFFFFF")
  ∧ (getTextColor backgroundColor = Ok None
     ↔ backgroundColor = None ∨ backgroundColor = Some "").
Proof.
  destruct backgroundColor as [color|]; [|split; [|split]].
  - destruct (getTextColor_cases color)
      as [[Hbad Hrun] | [Hgood [[Hrun ->] | [Hrun | Hrun]]]];
      rewrite Hrun; (split; [|split]).
    + split; [intros _; by exists color | by exists TypeError].
    + intros text [=].
    + split; [done|]. intros [[=] | [= ->]]. by destruct Hbad.
    + split; [intros [e [=]] | intros (c & [= <-] & Hbad); done].
    + intros text [=].
    + split; [by right | done].
    + split; [intros [e [=]] | intros (c & [= <-] & Hbad); done].
    + intros text [= <-]. by left.
    + split; [done|]. intros [[=] | [= Heq]]. by rewrite Heq in Hrun.
    + split; [intros [e [=]] | intros (c & [= <-] & Hbad); done].
    + intros text [= <-]. by right.
    + split; [done|]. intros [[=] | [= Heq]]. by rewrite Heq in Hrun.
  - split; [intros [e [=]] | intros (c & [=] & _)].
  - intros text [=].
  - split; [by left | done].
Qed.

Lemma isNaN_add x y : isNaN x ∨ isNaN y → isNaN (x + y).
Proof.
  unfold isNaN. rewrite FloatAxioms.add_spec. intros [-> | ->]; [done|].
  by destruct (Prim2SF x).
Qed.

Lemma isNaN_mul x y : isNaN y → isNaN (x * y).
Proof. unfold isNaN. rewrite FloatAxioms.mul_spec. intros ->. by destruct (Prim2SF x). Qed.

Lemma isNaN_div x y : isNaN x → isNaN (x / y).
Proof. unfold isNaN. rewrite FloatAxioms.div_spec. by intros ->. Qed.

Lemma isNaN_not_above x y : isNaN y → PrimFloat.ltb x y = false.
Proof.
  unfold isNaN. rewrite FloatAxioms.ltb_spec. intros ->. unfold SFltb.
  by destruct (Prim2SF x) as [| | |].
Qed.

Lemma luminance_nan r g b :
  isNaN r ∨ isNaN g ∨ isNaN b → textColorOf (luminance r g b) = "FFFFFF".
Proof.
  intros H. unfold textColorOf, luminance.
  rewrite isNaN_not_above; [done|].
  apply isNaN_div, isNaN_add.
  destruct H as [H | [H | H]].
  - left. apply isNaN_add. left. by apply isNaN_mul.
  - left. apply isNaN_add. right. by apply isNaN_mul.
  - right. by apply isNaN_mul.
Qed.

(** X14. A colour that passes the pattern but has a channel that
    [parseInt] cannot read ([NaN]) gives white text, not an error: the
    luminance is [NaN] and [NaN > 0.5] is false. *)
Theorem getTextColor_unreadable_channel_white (color r g b : string) :
  color ≠ "" →
  matchChannels
    (if (String.length color =? 4)%nat then expandShorthand color else color)
  = Some (r, g, b) →
  parseInt16 r = nan ∨ parseInt16 g = nan ∨ parseInt16 b = nan →
  getTextColor (Some color) = Ok (Some "FFFFFF").
Proof.
  intros Hne Hmatch Hnan. unfold getTextColor.
  destruct color as [|c0 rest]; [done|]. rewrite Hmatch.
  rewrite luminance_nan; [done|].
  destruct Hnan as [-> | [-> | ->]]; [left | right; left | right; right]; done.
Qed.

Lemma getTextColor_unreadable_channel_white_witness :
  getTextColor (Some "#12xy56") = Ok (Some "FFFFFF").
Proof.
  apply (getTextColor_unreadable_channel_white "#12xy56" "12" "xy" "56");
    [done | reflexivity | right; left; reflexivity].
Defined.

(** X12. The resolution of a cell throws exactly when the field is in
    [color-background] mode and the display colour of the row is not
    empty and fails the pattern: in every other mode any colour passes. *)
Theorem resolveCell_throws_iff (f : Field) (i : nat) :
  (∃ e, resolveCell f i = Throw e)
  ↔ cellOptionsType f = Some "color-background"
    ∧ ∃ color, displayColorAt f i = Some color ∧ malformed color.
Proof.
  unfold resolveCell, displayColorAt, displayAt, rawAt.
  set (links := from_option (λ getLinks : nat → list LinkModel, _) _ _).
  set (color := _ ≫= display_color).
  split.
  - repeat case_bool_decide; cbn [mbind result_bind].
    + destruct links; intros [? [=]].
    + destruct color as [c|]; [|destruct links; intros [? [=]]].
      destruct (getTextColor_cases c)
        as [[Hbad Hrun] | [_ [[Hrun _] | [Hrun | Hrun]]]];
        rewrite Hrun; cbn [mbind result_bind];
        try (destruct links; intros [? ?]; discriminate).
      intros _. split; [done|]. by exists c.
    + destruct links; intros [? [=]].
  - intros [Hmode (c & -> & Hbad)]. rewrite Hmode. cbn [bool_decide decide_rel].
    rewrite (getTextColor_malformed _ Hbad). by exists TypeError.
Qed.

(** Whatever the mode, a cell that was resolved is legible. *)
Lemma resolveCell_legible f i cell : resolveCell f i = Ok cell → legible cell.
Proof.
  unfold resolveCell, legible.
  set (links := from_option (λ getLinks : nat → list LinkModel, _) _ _).
  set (color := _ ≫= display_color).
  repeat case_bool_decide; cbn [mbind result_bind].
  - destruct links; intros [= <-]; cbn; (split; [by intros [? ?] || done|]);
      by intros c [=].
  - destruct color as [c|].
    + destruct (getTextColor_cases c)
        as [[Hbad Hrun] | [_ [[Hrun ->] | [Hrun | Hrun]]]];
        rewrite Hrun; cbn [mbind result_bind]; [done|..];
        destruct links; intros [= <-]; cbn;
        (split; [by intros [? ?] || done|]); intros c' [= <-] Hne; auto.
      all: done.
    + cbn [getTextColor mbind result_bind].
      destruct links; intros [= <-]; cbn; (split; [by intros [? ?] || done|]);
        by intros c [=].
  - destruct links; intros [= <-]; cbn; (split; [by intros [? ?] || done|]);
      by intros c [=].
Qed.

(** ** Invariants of the sheet *)

Lemma foldM_ok_inv {St A : Type} (P : St → Prop) (step : St → A → result St) l :
  (∀ s a s', a ∈ l → P s → step s a = Ok s' → P s') →
  ∀ s s', P s → foldM step s l = Ok s' → P s'.
Proof.
  induction l as [|a l IH]; intros Hstep s s' Hs; cbn [foldM].
  - by intros [= <-].
  - destruct (step s a) as [s1|e] eqn:H1; cbn [mbind result_bind]; [|done].
    apply IH.
    + intros s2 b s3 Hb. apply Hstep. by right.
    + eapply Hstep; [by left|exact Hs|exact H1].
Qed.

Section Invariant.

Variable fullDate : string.
Variable Q : string → DataColumn → Prop.

Lemma declareColumns_inv series fs : ∀ i results results',
  (∀ k f col, fs !! k = Some f →
     newColumn fullDate (field_name f) f = Ok col → Q (pretty (i + k)) col) →
  allColumns Q results →
  declareColumns fullDate series i fs results = Ok results' →
  allColumns Q results'.
Proof.
  induction fs as [|f fs IH]; intros i results results' Hnew Hall; cbn [declareColumns].
  - by intros [= <-].
  - unfold getFieldDisplayName.
    assert (∀ k g col, fs !! k = Some g →
              newColumn fullDate (field_name g) g = Ok col → Q (pretty (S i + k)) col)
      as Hnew'.
    { intros k g col Hg Hcol. replace (S i + k) with (i + S k) by lia.
      by apply (Hnew (S k) g). }
    destruct (truthyAt results (field_name f)); cbn [mbind result_bind].
    + by apply IH.
    + destruct (newColumn fullDate (field_name f) f) as [col|e] eqn:Hcol;
        cbn [mbind result_bind]; [|done].
      apply IH; [exact Hnew'|].
      intros key c. destruct (decide (key = pretty i)) as [-> | Hne].
      * rewrite lookup_insert_eq. intros [= <-].
        rewrite <- (Nat.add_0_r i). by apply (Hnew 0 f).
      * rewrite lookup_insert_ne by done. apply Hall.
Qed.

Lemma pushRow_inv i fs : ∀ j results results',
  (∀ k f cell col, fs !! k = Some f → resolveCell f i = Ok cell →
     Q (pretty (j + k)) col → Q (pretty (j + k)) (pushCell cell col)) →
  allColumns Q results →
  pushRow i j fs results = Ok results' →
  allColumns Q results'.
Proof.
  induction fs as [|f fs IH]; intros j results results' Hpush Hall; cbn [pushRow].
  - by intros [= <-].
  - destruct (resolveCell f i) as [cell|e] eqn:Hcell; cbn [mbind result_bind]; [|done].
    destruct (results !! pretty j) as [col|] eqn:Hcol; [|done].
    apply IH.
    + intros k g c col' Hg Hc. replace (S j + k) with (j + S k) by lia.
      by apply (Hpush (S k) g).
    + intros key c. destruct (decide (key = pretty j)) as [-> | Hne].
      * rewrite lookup_insert_eq. intros [= <-].
        rewrite <- (Nat.add_0_r j). apply (Hpush 0 f); [done|done|].
        rewrite Nat.add_0_r. by apply Hall.
      * rewrite lookup_insert_ne by done. apply Hall.
Qed.

(** A property that every new column has, and that pushing a resolved
    cell keeps, holds of every column of the sheet returned. *)
Lemma toObject_invariant data :
  (∀ series j f col, series ∈ data → fields series !! j = Some f →
     newColumn fullDate (field_name f) f = Ok col → Q (pretty j) col) →
  (∀ series j f i cell col, series ∈ data → fields series !! j = Some f →
     resolveCell f i = Ok cell → Q (pretty j) col →
     Q (pretty j) (pushCell cell col)) →
  ∀ sheet, toObject fullDate (Some data) = Ok sheet → allColumns Q sheet.
Proof.
  intros Hnew Hpush sheet. unfold toObject.
  apply (foldM_ok_inv (allColumns Q)); [|by intros key col; rewrite lookup_empty].
  intros results series results' Hseries Hall. unfold addSeries.
  destruct (fields series) as [|f0 rest] eqn:Hfields; [by intros [= <-]|].
  rewrite <- Hfields.
  destruct (declareColumns _ _ _ _ _) as [results1|e] eqn:Hdecl;
    cbn [mbind result_bind]; [|done].
  apply (foldM_ok_inv (allColumns Q)).
  - intros acc i acc' _. apply pushRow_inv.
    intros k f cell col Hf. by apply (Hpush series).
  - eapply declareColumns_inv; [|exact Hall|exact Hdecl].
    intros k f col Hf. by apply (Hnew series).
Qed.

End Invariant.

Lemma newColumn_ok_emptyColumn fullDate f col :
  newColumn fullDate (field_name f) f = Ok col → col = emptyColumn fullDate f.
Proof.
  intros Hcol. destruct (config_custom (field_config f)) as [custom|] eqn:Hc.
  - rewrite newColumn_emptyColumn in Hcol by (by eexists). by injection Hcol.
  - unfold newColumn in Hcol. by rewrite Hc in Hcol.
Qed.

(** X4. A frame without fields changes nothing: the sheet, or the error,
    is the one of the other frames. *)
Theorem toObject_skips_empty_frames (fullDate : string)
    (pre post : list DataFrame) (empty : DataFrame) :
  fields empty = [] →
  toObject fullDate (Some (pre ++ empty :: post))
  = toObject fullDate (Some (pre ++ post)).
Proof.
  intros Hempty. unfold toObject. rewrite !foldM_app.
  destruct (foldM (addSeries fullDate) ∅ pre) as [results|e]; [|done].
  cbn [mbind result_bind foldM].
  assert (addSeries fullDate results empty = Ok results) as ->; [|done].
  unfold addSeries. by rewrite Hempty.
Qed.

Lemma toObject_skips_empty_frames_witness :
  toObject Sample.fullDate
    (Some [Sample.frameHost; Sample.emptyFrame; Sample.frameLoad])
  = toObject Sample.fullDate (Some [Sample.frameHost; Sample.frameLoad]).
Proof.
  exact (toObject_skips_empty_frames Sample.fullDate [Sample.frameHost]
           [Sample.frameLoad] Sample.emptyFrame eq_refl).
Defined.

(** X5. Whatever the frames, every key of a sheet that [toObject] returns
    is the position of a field in some frame, that field has a [custom]
    block, and the metadata of the column are those built from it: names
    of fields are never keys, and no column is made up. *)
Theorem toObject_columns_come_from_fields (fullDate : string)
    (data : list DataFrame) (sheet : DataSheet) (key : string) (col : DataColumn) :
  toObject fullDate (Some data) = Ok sheet →
  sheet !! key = Some col →
  ∃ series j f,
    series ∈ data ∧ fields series !! j = Some f ∧ key = pretty j
    ∧ is_Some (config_custom (field_config f))
    ∧ columnSpec col = columnSpec (emptyColumn fullDate f).
Proof.
  intros Hrun. revert key col.
  apply (toObject_invariant fullDate
           (λ key col, ∃ series j f,
              series ∈ data ∧ fields series !! j = Some f ∧ key = pretty j
              ∧ is_Some (config_custom (field_config f))
              ∧ columnSpec col = columnSpec (emptyColumn fullDate f)) data);
    [| |exact Hrun].
  - intros series j f col Hs Hf Hcol. exists series, j, f.
    repeat (split; [done|]). split.
    + unfold newColumn in Hcol. destruct (config_custom _); [by eexists|done].
    + by rewrite (newColumn_ok_emptyColumn _ _ _ Hcol).
  - intros series j f i cell col _ _ _ (s & k & g & ? & ? & ? & ? & ?).
    by exists s, k, g.
Qed.

Lemma toObject_columns_come_from_fields_witness :
  ∃ sheet col,
    toObject Sample.fullDate (Some [Sample.frameHost; Sample.frameLoad]) = Ok sheet
    ∧ sheet !! "0" = Some col
    ∧ ∃ series j f,
        series ∈ [Sample.frameHost; Sample.frameLoad]
        ∧ fields series !! j = Some f ∧ "0" = pretty j
        ∧ is_Some (config_custom (field_config f))
        ∧ columnSpec col = columnSpec (emptyColumn Sample.fullDate f).
Proof.
  destruct (toObject Sample.fullDate (Some [Sample.frameHost; Sample.frameLoad]))
    as [sheet|e] eqn:Hrun; [|by vm_compute in Hrun].
  destruct (sheet !! "0") as [col|] eqn:Hcol;
    [|vm_compute in Hrun; injection Hrun as <-; by vm_compute in Hcol].
  exists sheet, col. split; [done|]. split; [done|].
  exact (toObject_columns_come_from_fields _ _ _ _ _ Hrun Hcol).
Defined.

(** X6. In every sheet that [toObject] returns, no column has the
    alignment "auto", and a column has a format string exactly when its
    type is time. *)
Theorem toObject_column_metadata (fullDate : string)
    (data : list DataFrame) (sheet : DataSheet) (key : string) (col : DataColumn) :
  toObject fullDate (Some data) = Ok sheet →
  sheet !! key = Some col →
  col_align col ≠ Some align_auto
  ∧ (is_Some (col_fmt col) ↔ col_type col = ft_time).
Proof.
  intros Hrun. revert key col.
  apply (toObject_invariant fullDate
           (λ _ col, col_align col ≠ Some align_auto
                     ∧ (is_Some (col_fmt col) ↔ col_type col = ft_time)) data);
    [| |exact Hrun].
  - intros series j f col _ _ Hcol.
    split; [by eapply newColumn_align_never_auto|].
    rewrite (newColumn_ok_emptyColumn _ _ _ Hcol). cbn.
    unfold columnFormat. destruct (field_type f); cbn; try (split; [by intros [? ?]|done]).
    split; [done|]. intros _.
    destruct (config_unit _) as [unit|]; cbn; [|by eexists].
    destruct (includes _ _); by eexists.
  - by intros series j f i cell col _ _ _ [Halign Hfmt].
Qed.

Lemma toObject_column_metadata_witness :
  ∃ sheet col,
    toObject Sample.fullDate (Some [ {| fields := [Sample.dayField] |} ]) = Ok sheet
    ∧ sheet !! "0" = Some col
    ∧ col_align col ≠ Some align_auto
    ∧ (is_Some (col_fmt col) ↔ col_type col = ft_time).
Proof.
  destruct (toObject Sample.fullDate (Some [ {| fields := [Sample.dayField] |} ]))
    as [sheet|e] eqn:Hrun; [|by vm_compute in Hrun].
  destruct (sheet !! "0") as [col|] eqn:Hcol;
    [|vm_compute in Hrun; injection Hrun as <-; by vm_compute in Hcol].
  exists sheet, col. split; [done|]. split; [done|].
  exact (toObject_column_metadata _ _ _ _ _ Hrun Hcol).
Defined.

(** X7. In every sheet that [toObject] returns, in whatever mode the
    fields are, every cell with a link has the link colour "#3B5586" as
    text colour, and every cell with a non-empty background has a text
    colour that is "000000", "FFFFFF" or the link colour. *)
Theorem toObject_cells_legible (fullDate : string)
    (data : list DataFrame) (sheet : DataSheet) (key : string) (col : DataColumn) :
  toObject fullDate (Some data) = Ok sheet →
  sheet !! key = Some col →
  Forall legible (col_data col).
Proof.
  intros Hrun. revert key col.
  apply (toObject_invariant fullDate (λ _ col, Forall legible (col_data col)) data);
    [| |exact Hrun].
  - intros series j f col _ _ Hcol.
    rewrite (newColumn_ok_emptyColumn _ _ _ Hcol). constructor.
  - intros series j f i cell col _ _ Hcell Hcells. cbn [pushCell col_data].
    apply Forall_app. split; [done|]. apply Forall_singleton.
    by eapply resolveCell_legible.
Qed.

Lemma toObject_cells_legible_witness :
  ∃ sheet col,
    toObject Sample.fullDate
      (Some [ {| fields := [Sample.colorTextField; Sample.linkedField] |} ]) = Ok sheet
    ∧ sheet !! "1" = Some col
    ∧ Forall legible (col_data col).
Proof.
  destruct (toObject Sample.fullDate
              (Some [ {| fields := [Sample.colorTextField; Sample.linkedField] |} ]))
    as [sheet|e] eqn:Hrun; [|by vm_compute in Hrun].
  destruct (sheet !! "1") as [col|] eqn:Hcol;
    [|vm_compute in Hrun; injection Hrun as <-; by vm_compute in Hcol].
  exists sheet, col. split; [done|]. split; [done|].
  exact (toObject_cells_legible _ _ _ _ _ Hrun Hcol).
Defined.

(** ** Display names that the guard of the set-up takes for columns *)

Lemma truthyAt_inherited results name :
  name ∈ objectPrototypeKeys → truthyAt results name = true.
Proof.
  intros H. unfold truthyAt. rewrite (bool_decide_eq_true_2 _ H). apply orb_true_r.
Qed.

Lemma declareColumns_outside fullDate series fs : ∀ i results results' key,
  (∀ k, k < length fs → key ≠ pretty (i + k)) →
  declareColumns fullDate series i fs results = Ok results' →
  results' !! key = results !! key.
Proof.
  induction fs as [|g fs IH]; intros i results results' key Hkey; cbn [declareColumns].
  - by intros [= <-].
  - assert (∀ k, k < length fs → key ≠ pretty (S i + k)) as Hkey'.
    { intros k Hk. replace (S i + k) with (i + S k) by lia. apply Hkey. cbn. lia. }
    destruct (truthyAt results _); cbn [mbind result_bind]; [by apply IH|].
    destruct (newColumn _ _ _) as [col|]; cbn [mbind result_bind]; [|done].
    intros Hrun. rewrite (IH _ _ _ _ Hkey' Hrun). apply lookup_insert_ne.
    intros <-. apply (Hkey 0); [cbn; lia|]. by rewrite Nat.add_0_r.
Qed.

Lemma declareColumns_skips_inherited fullDate series fs : ∀ i k f results results',
  fs !! k = Some f →
  field_name f ∈ objectPrototypeKeys →
  results !! pretty (i + k) = None →
  declareColumns fullDate series i fs results = Ok results' →
  results' !! pretty (i + k) = None.
Proof.
  induction fs as [|g fs IH]; intros i k f results results' Hk Hname Hnone; [done|].
  cbn [declareColumns]. unfold getFieldDisplayName.
  destruct k as [|k]; cbn in Hk.
  - injection Hk as ->. rewrite truthyAt_inherited by done. cbn [mbind result_bind].
    intros Hrun.
    rewrite (declareColumns_outside fullDate series fs (S i) results results');
      [done| |done].
    intros k _ Heq%(inj pretty). lia.
  - replace (i + S k) with (S i + k) in * by lia.
    destruct (truthyAt results _); cbn [mbind result_bind]; [by apply (IH _ _ f)|].
    destruct (newColumn _ _ _) as [col|]; cbn [mbind result_bind]; [|done].
    apply (IH _ _ f); [done|done|]. rewrite lookup_insert_ne; [done|].
    intros Heq%(inj pretty). lia.
Qed.

Lemma pushRow_missing_column i fs : ∀ j k f results,
  fs !! k = Some f →
  results !! pretty (j + k) = None →
  ∃ e, pushRow i j fs results = Throw e.
Proof.
  induction fs as [|g fs IH]; intros j k f results Hk Hnone; [done|].
  cbn [pushRow]. destruct (resolveCell g i) as [cell|e]; cbn [mbind result_bind];
    [|by exists e].
  destruct k as [|k]; cbn in Hk.
  - rewrite Nat.add_0_r in Hnone. rewrite Hnone. by exists TypeError.
  - destruct (results !! pretty j) as [col|]; [|by exists TypeError].
    apply (IH _ k f); [done|]. replace (S j + k) with (j + S k) by lia.
    rewrite lookup_insert_ne; [done|]. intros Heq%(inj pretty). lia.
Qed.

(** X11. When a field of the first frame has a display name that every
    object inherits ("constructor", "toString", ...) and the frame has a
    row, [toObject] throws a TypeError: the guard takes the inherited
    property for a column, no column is set up at that position, and the
    first push there fails. *)
Theorem toObject_inherited_name_aborts (fullDate : string) (series : DataFrame)
    (later : list DataFrame) (k : nat) (f : Field) :
  fields series !! k = Some f →
  field_name f ∈ objectPrototypeKeys →
  0 < rowCount series →
  toObject fullDate (Some (series :: later)) = Throw TypeError.
Proof.
  intros Hk Hname Hrows.
  cut (∃ e, toObject fullDate (Some (series :: later)) = Throw e).
  { intros [e He]. by rewrite He, (toObject_throw_inv _ _ _ He). }
  unfold toObject. cbn [foldM].
  assert (∃ e, addSeries fullDate ∅ series = Throw e) as [e ->]; [|by exists e].
  unfold addSeries, rowCount in *.
  destruct (fields series) as [|f0 rest] eqn:Hfields; [done|].
  cbn [head from_option] in Hrows.
  destruct (declareColumns _ _ _ _ _) as [results|e] eqn:Hdecl;
    cbn [mbind result_bind]; [|by exists e].
  destruct (length (field_values f0)) as [|n]; [lia|]. cbn [seq foldM].
  destruct (pushRow_missing_column 0 (f0 :: rest) 0 k f results) as [e He].
  - done.
  - apply (declareColumns_skips_inherited _ _ _ _ _ _ _ _ Hk Hname) in Hdecl; done.
  - rewrite He. by exists e.
Qed.

Lemma toObject_inherited_name_aborts_witness :
  toObject Sample.fullDate (Some [Sample.constructorFrame; Sample.frameA1])
  = Throw TypeError.
Proof.
  apply (toObject_inherited_name_aborts Sample.fullDate Sample.constructorFrame
           [Sample.frameA1] 0 _ eq_refl).
  - unfold objectPrototypeKeys. cbn. left.
  - cbn. lia.
Defined.

(** ** Custom time formats *)

Lemma prefix_append needle rest : String.prefix needle (needle +:+ rest) = true.
Proof.
  induction needle as [|c needle IH].
  - by destruct rest.
  - change (String c needle +:+ rest) with (String c (needle +:+ rest)).
    cbn. by destruct (ascii_dec c c).
Qed.

Lemma skip_append needle rest : skip (String.length needle) (needle +:+ rest) = rest.
Proof.
  induction needle as [|c needle IH].
  - by destruct rest.
  - change (String c needle +:+ rest) with (String c (needle +:+ rest)). by cbn.
Qed.

Lemma includes_starts needle rest : includes needle (needle +:+ rest) = true.
Proof.
  pose proof (prefix_append needle rest) as H.
  destruct (needle +:+ rest); cbn [includes]; by rewrite H.
Qed.

Lemma replace_starts needle by_ rest :
  replace needle by_ (needle +:+ rest) = by_ +:+ rest.
Proof.
  pose proof (prefix_append needle rest) as H.
  pose proof (skip_append needle rest) as Hs.
  destruct (needle +:+ rest); cbn [replace]; by rewrite H, Hs.
Qed.

(** X15. For a time field whose unit is "time:" followed by any format,
    the format string of the column is that format, to the letter. *)
Theorem newColumn_custom_time_format (fullDate name : string) (f : Field)
    (col : DataColumn) (fmt : string) :
  newColumn fullDate name f = Ok col →
  field_type f = ft_time →
  config_unit (field_config f) = Some ("time:" +:+ fmt) →
  col_fmt col = Some fmt.
Proof.
  unfold newColumn. destruct (config_custom _) as [custom|]; [|done].
  intros [= <-] Htype Hunit. cbn [col_fmt]. unfold columnFormat.
  rewrite Htype, Hunit. cbn [fmap option_fmap option_map default from_option id].
  by rewrite includes_starts, replace_starts.
Qed.

Lemma newColumn_custom_time_format_witness :
  ∃ col, newColumn Sample.fullDate "t" Sample.timeOfDayField = Ok col
         ∧ col_fmt col = Some "HH:mm".
Proof.
  eexists. split; [reflexivity|].
  by apply (newColumn_custom_time_format Sample.fullDate "t" Sample.timeOfDayField
              _ "HH:mm" eq_refl).
Defined.

(** ** What the downloads export *)

Lemma board_allLoaded : allLoaded Sample.board.
Proof.
  intros p Hp. cbn in Hp.
  repeat (apply elem_of_cons in Hp as [-> | Hp]; [done|]).
  by apply elem_of_nil in Hp.
Qed.






Lemma zipLoop_seq d k : ∀ a zip,
  (a + k ≤ length (panels d))%nat →
  (∀ j q, a ≤ j < a + k → panels d !! j = Some q → is_ok (waitForData d q) = true) →
  foldM (zipStep d) zip (seq a k)
  = Ok (zip ++ imap (λ i, zipEntry d (a + i)) (take k (drop a (panels d)))).
Proof.
  induction k as [|k IH]; intros a zip Hlen Hok.
  - rewrite take_0. cbn. by rewrite (right_id_L [] (++)).
  - cbn [seq foldM].
    destruct (lookup_lt_is_Some_2 (panels d) a) as [q Hq]; [lia|].
    assert (zipStep d zip a = Ok (zip ++ [zipEntry d a q])) as ->.
    { unfold zipStep, zipEntry, okFrames. rewrite Hq.
      specialize (Hok a q) as Hwait.
      destruct (waitForData d q) as [frames|e]; [done|].
      discriminate Hwait; [lia|done]. }
    cbn [mbind result_bind]. rewrite IH; [|lia|intros j r Hj; apply Hok; lia].
    rewrite (drop_S _ _ _ Hq), firstn_cons, imap_cons, <- (assoc_L (++)).
    cbn [app]. rewrite Nat.add_0_r. do 3 f_equal.
    apply imap_ext. intros i r _. unfold compose. f_equal. lia.
Qed.

(** X19. When the data of every panel arrive, [downloadZip] saves an
    archive with one entry per selected id: entry number [i + 1] holds the
    frames of the panel at index [i] of the dashboard. *)
Theorem downloadZip_entries (ids : list Z) (d : DashboardModel) :
  allLoaded d →
  downloadZip ids (Some d)
  = Ok (Some (imap (zipEntry d) (take (length (selectPanels ids d)) (panels d)))).
Proof.
  intros Hok. unfold downloadZip.
  rewrite (zipLoop_seq d _ 0 []).
  - done.
  - cbn. apply selectPanels_length.
  - intros j q _ Hq. apply Hok. apply list_elem_of_lookup. by exists j.
Qed.

Lemma downloadZip_entries_witness :
  downloadZip [] (Some Sample.board)
  = Ok (Some [ {| zip_number := 1; zip_frames := Sample.panelFrames "P1" |};
               {| zip_number := 2; zip_frames := Sample.panelFrames "P2" |};
               {| zip_number := 3; zip_frames := Sample.panelFrames "P3" |} ]).
Proof. exact (downloadZip_entries [] Sample.board board_allLoaded). Defined.

(** X20. When the data of a panel that the loop reaches fail,
    [downloadZip] rejects with that failure and saves no archive. *)
Theorem downloadZip_nothing_on_failure (ids : list Z) (d : DashboardModel)
    (k : nat) (p : PanelModel) (e : exn) :
  k < length (selectPanels ids d) →
  panels d !! k = Some p →
  waitForData d p = Throw e →
  (∀ j q, j < k → panels d !! j = Some q → is_ok (waitForData d q) = true) →
  downloadZip ids (Some d) = Throw e.
Proof.
  intros Hk Hp Hfail Hok. unfold downloadZip.
  set (n := length (selectPanels ids d)) in *.
  replace (seq 0 n) with (seq 0 k ++ seq k (S (n - S k))).
  - rewrite foldM_app, (zipLoop_seq d k 0 []).
    + cbn [mbind result_bind seq foldM].
      assert (∀ zip, zipStep d zip k = Throw e) as ->; [|done].
      intros zip. unfold zipStep. by rewrite Hp, Hfail.
    + apply lookup_lt_Some in Hp. cbn. lia.
    + intros j q Hj. apply Hok. lia.
  - replace n with (k + S (n - S k)) at 2 by lia.
    by rewrite seq_app.
Qed.

Lemma downloadZip_nothing_on_failure_witness :
  downloadZip [] (Some Sample.brokenBoard) = Throw (Rejected "Error loading data").
Proof.
  apply (downloadZip_nothing_on_failure [] Sample.brokenBoard 1
           (Sample.failingPanel 2 "P2") (Rejected "Error loading data")).
  - vm_compute. lia.
  - reflexivity.
  - reflexivity.
  - intros j q Hj Hq. assert (j = 0) as -> by lia. by injection Hq as <-.
Defined.

Lemma sheetLoop_inv fullDate fetch d k : ∀ a workbook workbook',
  (a + k ≤ length (panels d))%nat →
  foldM (sheetStep fullDate fetch d) workbook (seq a k) = Ok workbook' →
  ∃ new,
    workbook' = workbook ++ new
    ∧ sheet_name <$> new = imap (λ i, sheetName (a + i)) (take k (drop a (panels d)))
    ∧ Forall2 (sheetOf fullDate d) new (take k (drop a (panels d))).
Proof.
  induction k as [|k IH]; intros a workbook workbook' Hlen.
  - cbn. intros [= <-]. exists []. rewrite take_0, (right_id_L [] (++)).
    split; [done|]. split; [done|]. constructor.
  - cbn [seq foldM].
    destruct (lookup_lt_is_Some_2 (panels d) a) as [q Hq]; [lia|].
    destruct (sheetStep fullDate fetch d workbook a) as [workbook1|e] eqn:Hstep;
      cbn [mbind result_bind]; [|done].
    intros Hrun.
    destruct (IH (S a) workbook1 workbook') as (new & -> & Hnames & Hsheets);
      [lia|done|].
    assert (∃ sheet, workbook1 = workbook ++ [sheet]
                     ∧ sheet_name sheet = sheetName a q
                     ∧ sheetOf fullDate d sheet q) as (sheet & -> & Hname & Hsheet).
    { revert Hstep. unfold sheetStep. rewrite Hq. case_bool_decide as Htype.
      - destruct (fetch d q) as [base64|]; cbn [mbind result_bind]; [|done].
        intros [= <-]. eexists. split; [done|]. by split.
      - destruct (waitForData d q) as [frames|] eqn:Hw; cbn [mbind result_bind]; [|done].
        destruct (toObject fullDate (Some frames)) as [data|] eqn:Hd;
          cbn [mbind result_bind]; [|done].
        intros [= <-]. eexists. split; [done|]. split; [done|].
        unfold sheetOf. cbn.
        split; [by destruct (decide (panel_type q = "table")) | by exists frames]. }
    exists (sheet :: new). rewrite <- (assoc_L (++)). split; [done|].
    rewrite (drop_S _ _ _ Hq), firstn_cons, imap_cons, fmap_cons, Hname, Nat.add_0_r.
    split; [|by constructor].
    f_equal. rewrite Hnames. apply imap_ext. intros i r _. unfold compose.
    f_equal. lia.
Qed.

(** X21. A workbook that [downloadXlsx] saves has one worksheet per
    selected id; worksheet [i] is named [i + 1], a dash and the title of
    the panel at index [i] of the dashboard, and holds an image when that
    panel is not a table, else the sheet made by [toObject] from the data
    the panel loaded. *)
Theorem downloadXlsx_worksheets (fullDate : string)
    (fetch : DashboardModel → PanelModel → result string)
    (ids : list Z) (d : DashboardModel) (workbook : list Worksheet) :
  downloadXlsx fullDate fetch ids (Some d) = Ok (Some workbook) →
  sheet_name <$> workbook
  = imap sheetName (take (length (selectPanels ids d)) (panels d))
  ∧ Forall2 (sheetOf fullDate d) workbook
            (take (length (selectPanels ids d)) (panels d)).
Proof.
  unfold downloadXlsx.
  destruct (foldM _ _ _) as [wb|e] eqn:Hrun; cbn [mbind result_bind]; [|done].
  intros [= <-].
  destruct (sheetLoop_inv fullDate fetch d (length (selectPanels ids d)) 0 [] wb)
    as (new & -> & Hnames & Hsheets);
    [cbn; apply selectPanels_length | exact Hrun |].
  by split.
Qed.

Lemma downloadXlsx_worksheets_witness :
  ∃ workbook,
    downloadXlsx Sample.fullDate Sample.fetchImage [] (Some Sample.mixedBoard)
    = Ok (Some workbook)
    ∧ sheet_name <$> workbook = ["1-G1"; "2-P2"]
    ∧ Forall2 (sheetOf Sample.fullDate Sample.mixedBoard) workbook
              (panels Sample.mixedBoard).
Proof.
  destruct (downloadXlsx Sample.fullDate Sample.fetchImage [] (Some Sample.mixedBoard))
    as [[workbook|]|e] eqn:Hrun; [|by vm_compute in Hrun..].
  exists workbook. split; [done|].
  exact (downloadXlsx_worksheets _ _ _ _ _ Hrun).
Defined.

(** ** The last results of the panels *)

Lemma recordResult_is_Some getLastResult l id : ∀ acc,
  is_Some (foldl (recordResult getLastResult) acc l !! id)
  ↔ is_Some (acc !! id) ∨ ∃ p, p ∈ l ∧ panel_id p = id.
Proof.
  induction l as [|q l IH]; intros acc; cbn [foldl].
  - split; [by left|]. intros [H|(p & Hp & _)]; [done|]. by apply elem_of_nil in Hp.
  - rewrite IH.
    change (recordResult getLastResult acc q)
      with (<[panel_id q := getLastResult q]> acc). split.
    + intros [H|(p & Hp & Hid)].
      * destruct (decide (panel_id q = id)) as [Heq|Hne].
        -- right. exists q. split; [by left|done].
        -- left. by rewrite lookup_insert_ne in H.
      * right. exists p. split; [by right|done].
    + intros [H|(p & Hp & Hid)].
      * left. destruct (decide (panel_id q = id)) as [<- | Hne].
        -- rewrite lookup_insert_eq. by eexists.
        -- by rewrite lookup_insert_ne.
      * apply elem_of_cons in Hp as [-> | Hp].
        -- left. rewrite <- Hid, lookup_insert_eq. by eexists.
        -- right. by exists p.
Qed.

Lemma recordResult_other getLastResult l id : ∀ acc,
  (∀ q, q ∈ l → panel_id q ≠ id) →
  foldl (recordResult getLastResult) acc l !! id = acc !! id.
Proof.
  induction l as [|q l IH]; intros acc Hother; cbn [foldl]; [done|].
  rewrite IH by (intros r Hr; apply Hother; by right).
  unfold recordResult. apply lookup_insert_ne. apply Hother. by left.
Qed.

(** X22. The object that [getPanelData] returns has an entry exactly for
    the ids of the panels of the dashboard, and the entry of an id holds
    the last result of the last panel with that id. *)
Theorem getPanelData_entries (getLastResult : PanelModel → option PanelData)
    (d : DashboardModel) (results : gmap Z (option PanelData)) :
  getPanelData getLastResult (Some d) = Some results →
  (∀ id, is_Some (results !! id) ↔ ∃ p, p ∈ panels d ∧ panel_id p = id)
  ∧ (∀ pre p post,
       panels d = pre ++ p :: post →
       (∀ q, q ∈ post → panel_id q ≠ panel_id p) →
       results !! panel_id p = Some (getLastResult p)).
Proof.
  intros [= <-]. split.
  - intros id. rewrite recordResult_is_Some, lookup_empty. split.
    + by intros [[? [=]]|H].
    + by right.
  - intros pre p post -> Hlast. rewrite foldl_app. cbn [foldl].
    rewrite recordResult_other by done. apply lookup_insert_eq.
Qed.

Lemma getPanelData_entries_witness :
  ∃ results,
    getPanelData Sample.lastEmission (Some Sample.twinBoard) = Some results
    ∧ results !! 1%Z = Some (Sample.lastEmission (Sample.panel 1 "P1bis"))
    ∧ ¬ is_Some (results !! 3%Z).
Proof.
  eexists. split; [reflexivity|].
  destruct (getPanelData_entries Sample.lastEmission Sample.twinBoard _ eq_refl)
    as [Hdom Hlast].
  split.
  - exact (Hlast [Sample.panel 1 "P1"; Sample.panel 2 "P2"]
             (Sample.panel 1 "P1bis") [] eq_refl
             (λ q Hq, False_ind _ (proj1 (elem_of_nil q) Hq))).
  - intros (p & Hp & Hid)%Hdom. cbn in Hp.
    repeat (apply elem_of_cons in Hp as [-> | Hp]; [done|]).
    by apply elem_of_nil in Hp.
Defined.

(** ** The dialog after a download that succeeds *)

Section Settled.
Import ShareReport.

Lemma handle_setLoading b during : ∀ s,
  foldl handle (setLoading b s) during = setLoading b (foldl handle s during).
Proof.
  induction during as [|e during IH]; intros s; [done|].
  cbn [foldl]. rewrite <- IH. by destruct e.
Qed.

(** X23. When the download resolves, the dialog ends in the state that
    the choices made during the wait give to the state at the click, with
    the in-progress flag cleared: [onDownload] itself changes neither the
    report type nor the zipped switch. *)
Theorem onDownload_resolved_state (runtime : option GrafanaRuntime)
    (during : list UiEvent) (s : State) :
  (onDownload runtime during s).2 = Ok () →
  (onDownload runtime during s).1 = setLoading false (foldl handle s during).
Proof.
  unfold onDownload.
  destruct (match reportType _ with csv => _ | xlsx => _ end); [|done].
  intros _. cbn [fst]. by rewrite handle_setLoading.
Qed.

Lemma onDownload_resolved_state_witness :
  (onDownload (Some Sample.workingRuntime) [ToggleZipped; PickReportType xlsx]
     initialState).1
  = {| reportType := xlsx; zipped := true; loading := false |}.
Proof.
  by rewrite (onDownload_resolved_state (Some Sample.workingRuntime)
                [ToggleZipped; PickReportType xlsx] initialState eq_refl).
Defined.

End Settled.
